(** * useChatWebSocket: a model of the chat hook and its checked properties

    The development embeds [src/useChatWebSocket.ts] as functions over an
    explicit world: the three pieces of React state, the [typingTimeouts]
    ref, the socket handed over by [useWebSocket], and the parts of the
    browser the hook talks to (timer table, clock, console).

    Conventions of the embedding:
    - a state updater passed to a [set...] function runs once, at the call,
      on the latest state (so a sequence of events is a fold over the world);
      when it throws, React keeps the throw from the caller and raises it
      again while rendering, which unmounts the hook: the effect's cleanup
      runs and the hook is gone;
    - timer handles are positive integers, as [setTimeout] returns them in a
      browser; a pending timer runs no earlier than its due time;
    - the registry [typingTimeouts.current] is a plain object used as a map:
      a finite map of its own properties;
    - an inbound [MessageEvent] carries its text together with what
      [JSON.parse] makes of that text. *)

From stdpp Require Import gmap strings list.
From Stdlib Require Import ZArith Lia.

Set Warnings "-register-all".
Open Scope string_scope.
Open Scope list_scope.
Open Scope Z_scope.

(** ** JavaScript values *)

(** A Number is identified by the text [Number.prototype.toString] prints for
    it: distinct Numbers print differently, except [+0] and [-0], which both
    print ["0"] and which [===] does not tell apart either. *)
Definition Number := string.

(** Values that [JSON.parse] can return, and [undefined]. *)
Inductive JValue :=
| JUndefined
| JNull
| JBool (b : bool)
| JNum (n : Number)
| JStr (s : string)
| JArr (items : list JValue)
| JObj (props : list (string * JValue)).

(** A value as the running program holds it: arrays and objects have an
    identity (the address of their allocation), primitives have none. *)
Record Val := { jv : JValue; addr : nat }.

Definition str (s : string) : Val := {| jv := JStr s; addr := 0%nat |}.

Inductive JsError := TypeError | SyntaxError.

(** Outcome of running a piece of code: it returns, or it throws. *)
Inductive Completion (A : Type) :=
| Return (a : A)
| Thrown (e : JsError).
Arguments Return {A} a.
Arguments Thrown {A} e.

(** Own property [k] of a decoded object ([undefined] when there is none).
    [JSON.parse] keeps one value per key, so the keys of [props] are
    distinct. *)
Fixpoint own (k : string) (props : list (string * JValue)) : JValue :=
  match props with
  | [] => JUndefined
  | (k', v) :: rest => if String.eqb k k' then v else own k rest
  end.

(** [v.k] for the field names the hook reads ([type], [id], [sender],
    [content], [media], [seen_by], [timestamp], [username], [active_users]):
    none of them is a member of a prototype, so on anything but an object
    with that own key the access gives [undefined]; on [null] and
    [undefined] it throws. *)
Definition member (v : JValue) (k : string) : Completion JValue :=
  match v with
  | JUndefined | JNull => Thrown TypeError
  | JObj props => Return (own k props)
  | _ => Return JUndefined
  end.

(** [a ?? b] *)
Definition nullish (a b : JValue) : JValue :=
  match a with
  | JUndefined | JNull => b
  | _ => a
  end.

(** [a === b] *)
Definition strict_equals (a b : Val) : bool :=
  match jv a, jv b with
  | JUndefined, JUndefined => true
  | JNull, JNull => true
  | JBool x, JBool y => Bool.eqb x y
  | JNum x, JNum y => String.eqb x y && negb (String.eqb x "NaN")
  | JStr x, JStr y => String.eqb x y
  | (JArr _ | JObj _), (JArr _ | JObj _) => Nat.eqb (addr a) (addr b)
  | _, _ => false
  end.

(** SameValueZero, the comparison of [Array.prototype.includes]: as [===],
    but [NaN] equals itself. *)
Definition same_value_zero (a b : Val) : bool :=
  match jv a, jv b with
  | JNum x, JNum y => String.eqb x y
  | _, _ => strict_equals a b
  end.

Definition includes (l : list Val) (x : Val) : bool :=
  existsb (fun e => same_value_zero e x) l.

Fixpoint join (sep : string) (parts : list string) : string :=
  match parts with
  | [] => ""
  | [p] => p
  | p :: rest => String.append p (String.append sep (join sep rest))
  end.

Fixpoint sequence {A} (l : list (option A)) : option (list A) :=
  match l with
  | [] => Some []
  | None :: _ => None
  | Some a :: rest =>
      match sequence rest with
      | Some r => Some (a :: r)
      | None => None
      end
  end.

(** ToString of a value, [None] when it throws a TypeError.  An array prints
    its elements joined by commas ([null] and [undefined] elements print
    empty); an object prints ["[object Object]"], unless the decoded object
    has an own [toString] key: its value is not callable, the inherited
    [valueOf] returns the object itself, and the conversion throws. *)
Fixpoint ToString (v : JValue) : option string :=
  match v with
  | JUndefined => Some "undefined"
  | JNull => Some "null"
  | JBool true => Some "true"
  | JBool false => Some "false"
  | JNum n => Some n
  | JStr s => Some s
  | JArr items =>
      join "," <$>
        sequence
          ((fix each (l : list JValue) : list (option string) :=
              match l with
              | [] => []
              | (JUndefined | JNull) :: rest => Some "" :: each rest
              | x :: rest => ToString x :: each rest
              end) items)
  | JObj props =>
      if existsb (fun p => String.eqb (fst p) "toString") props
      then None
      else Some "[object Object]"
  end.

(** The key under which [obj[v]] looks. *)
Definition ToPropertyKey (v : Val) : Completion string :=
  match ToString (jv v) with
  | Some k => Return k
  | None => Thrown TypeError
  end.

(** ** The world of the hook *)

(** [ReceivedMessage]: the object literal built at the ["message"] case.
    The fields hold whatever the frame held; [undefined] is an absent
    field. *)
Record ReceivedMessage := {
  msg_type : string;
  msg_id : JValue;
  msg_sender : JValue;
  msg_content : JValue;
  msg_media : JValue;
  msg_seen_by : JValue;
  msg_timestamp : JValue;
}.

(** [SendMessageParams]; its [type] is the constant ["message"]. *)
Record SendMessageParams := {
  sender_id : Number;
  content : string;
  media : JValue;
}.

Definition of_params (m : SendMessageParams) : JValue :=
  JObj [("type", JStr "message"); ("sender_id", JNum (sender_id m));
        ("content", JStr (content m)); ("media", media m)].

(** The argument of [ws.send]: a string as it is, or the text that
    [JSON.stringify] prints for a value. *)
Inductive Text :=
| Lit (s : string)
| JSON_stringify (v : JValue).

Inductive ReadyState := CONNECTING | OPEN | CLOSING | CLOSED.

Definition is_open (r : ReadyState) : bool :=
  match r with OPEN => true | _ => false end.

(** The socket of [useWebSocket]: its state, whether the hook's handler sits
    in its [onmessage] slot, and the frames written to it so far. *)
Record WebSocket := {
  readyState : ReadyState;
  onmessage_set : bool;
  written : list Text;
}.

(** A pending [setTimeout] of [handleTyping]: the callback closes over
    [username] only. *)
Record Timer := {
  handle : positive;
  due : Z;
  username : Val;
}.

(** An inbound event: [e.data], and what [JSON.parse(e.data)] returns
    ([None] when it throws). *)
Record MessageEvent := {
  data : string;
  decoded : option JValue;
}.

Record World := mkWorld {
  log : bool;
  receivedMessages : list ReceivedMessage;
  typingUsers : list Val;
  activeUsers : JValue;
  typingTimeouts : gmap string positive;
  ws : option WebSocket;
  clock : Z;
  timers : list Timer;
  next_handle : positive;
  next_addr : nat;
  console : list (string * JValue);
  mounted : bool;
}.

Definition set_receivedMessages (f : list ReceivedMessage → list ReceivedMessage) (w : World) : World :=
  mkWorld (log w) (f (receivedMessages w)) (typingUsers w) (activeUsers w)
    (typingTimeouts w) (ws w) (clock w) (timers w) (next_handle w)
    (next_addr w) (console w) (mounted w).

Definition set_typingUsers (f : list Val → list Val) (w : World) : World :=
  mkWorld (log w) (receivedMessages w) (f (typingUsers w)) (activeUsers w)
    (typingTimeouts w) (ws w) (clock w) (timers w) (next_handle w)
    (next_addr w) (console w) (mounted w).

Definition set_activeUsers (v : JValue) (w : World) : World :=
  mkWorld (log w) (receivedMessages w) (typingUsers w) v
    (typingTimeouts w) (ws w) (clock w) (timers w) (next_handle w)
    (next_addr w) (console w) (mounted w).

Definition set_typingTimeouts (f : gmap string positive → gmap string positive) (w : World) : World :=
  mkWorld (log w) (receivedMessages w) (typingUsers w) (activeUsers w)
    (f (typingTimeouts w)) (ws w) (clock w) (timers w) (next_handle w)
    (next_addr w) (console w) (mounted w).

Definition set_ws (s : option WebSocket) (w : World) : World :=
  mkWorld (log w) (receivedMessages w) (typingUsers w) (activeUsers w)
    (typingTimeouts w) s (clock w) (timers w) (next_handle w)
    (next_addr w) (console w) (mounted w).

Definition set_clock (t : Z) (w : World) : World :=
  mkWorld (log w) (receivedMessages w) (typingUsers w) (activeUsers w)
    (typingTimeouts w) (ws w) t (timers w) (next_handle w)
    (next_addr w) (console w) (mounted w).

Definition set_timers (f : list Timer → list Timer) (w : World) : World :=
  mkWorld (log w) (receivedMessages w) (typingUsers w) (activeUsers w)
    (typingTimeouts w) (ws w) (clock w) (f (timers w)) (next_handle w)
    (next_addr w) (console w) (mounted w).

Definition set_next_handle (h : positive) (w : World) : World :=
  mkWorld (log w) (receivedMessages w) (typingUsers w) (activeUsers w)
    (typingTimeouts w) (ws w) (clock w) (timers w) h
    (next_addr w) (console w) (mounted w).

Definition set_next_addr (a : nat) (w : World) : World :=
  mkWorld (log w) (receivedMessages w) (typingUsers w) (activeUsers w)
    (typingTimeouts w) (ws w) (clock w) (timers w) (next_handle w)
    a (console w) (mounted w).

Definition set_console (f : list (string * JValue) → list (string * JValue)) (w : World) : World :=
  mkWorld (log w) (receivedMessages w) (typingUsers w) (activeUsers w)
    (typingTimeouts w) (ws w) (clock w) (timers w) (next_handle w)
    (next_addr w) (f (console w)) (mounted w).

Definition set_mounted (b : bool) (w : World) : World :=
  mkWorld (log w) (receivedMessages w) (typingUsers w) (activeUsers w)
    (typingTimeouts w) (ws w) (clock w) (timers w) (next_handle w)
    (next_addr w) (console w) b.

(** The hook at mount: empty state, no socket yet. *)
Definition mount (log : bool) : World :=
  mkWorld log [] [] (JArr []) ∅ None 0 [] 1%positive 1%nat [] true.

(** ** Code that changes the world and may throw *)

Definition M (A : Type) : Type := World → Completion A * World.

Definition ret {A} (a : A) : M A := fun w => (Return a, w).

Definition throw {A} (e : JsError) : M A := fun w => (Thrown e, w).

Definition bind {A B} (m : M A) (k : A → M B) : M B :=
  fun w =>
    match m w with
    | (Return a, w') => k a w'
    | (Thrown e, w') => (Thrown e, w')
    end.

Definition lift {A} (c : Completion A) : M A := fun w => (c, w).

Definition modify (f : World → World) : M unit := fun w => (Return tt, f w).

(** [m] under a [try] whose [catch] keeps the throw: how [m] completed. *)
Definition attempt {A} (m : M A) : M (Completion A) :=
  fun w => (Return (fst (m w)), snd (m w)).

Definition gets {A} (f : World → A) : M A := fun w => (Return (f w), w).

#[export] Instance M_ret : MRet M := @ret.
#[export] Instance M_bind : MBind M := fun A B k m => bind m k.

(** The world after running [m], and how [m] completed. *)
Definition exec {A} (m : M A) (w : World) : World := snd (m w).
Definition completion {A} (m : M A) (w : World) : Completion A := fst (m w).

(** ** The hook *)

(** [logEvent], lines 78-83. *)
Definition logEvent (label : string) (payload : JValue) : M unit :=
  enabled ← gets log;
  if (enabled : bool)
  then modify (set_console (λ c, c ++ [(label, nullish payload (JStr ""))]))
  else mret tt.

(** [ws.send(text)] on an open socket. *)
Definition send (text : Text) (s : WebSocket) : WebSocket :=
  {| readyState := readyState s; onmessage_set := onmessage_set s;
     written := written s ++ [text] |}.

(** [sendWS], lines 90-100. *)
Definition sendWS (payload : JValue) : M bool :=
  sock ← gets ws;
  match sock with
  | Some s =>
      if negb (is_open (readyState s))
      then logEvent "WebSocket not connected" JUndefined;; mret false
      else
        modify (set_ws (Some (send (match payload with
                                    | JStr text => Lit text
                                    | _ => JSON_stringify payload
                                    end) s)));;
        mret true
  | None => logEvent "WebSocket not connected" JUndefined;; mret false
  end.

(** [setTimeout(callback, delay)] for the callback of [handleTyping], which
    is determined by the [username] it closes over. *)
Definition setTimeout (user : Val) (delay : Z) : M positive :=
  h ← gets next_handle;
  now ← gets clock;
  modify (set_timers (λ l, l ++ [{| handle := h; due := now + delay; username := user |}]));;
  modify (set_next_handle (Pos.succ h));;
  mret h.

Definition clearTimeout (h : positive) : M unit :=
  modify (set_timers (List.filter (λ t, negb (Pos.eqb (handle t) h)))).

(** [typingTimeouts.current[key] = h].  The registry is a plain object: the
    assignment creates an own property, except for the key ["__proto__"],
    where it runs the inherited setter, which ignores a number. *)
Definition registry_set (key : string) (h : positive) (reg : gmap string positive) : gmap string positive :=
  if String.eqb key "__proto__" then reg else <[key := h]> reg.

(** [ws.onmessage = handler] and [ws.onmessage = null], on the socket the
    effect was run with. *)
Definition assign_onmessage (installed : bool) : M unit :=
  modify (λ w,
    match ws w with
    | Some s => set_ws (Some {| readyState := readyState s; onmessage_set := installed;
                                written := written s |}) w
    | None => w
    end).

(** [Object.values(typingTimeouts.current)] *)
Definition Object_values (reg : gmap string positive) : list positive :=
  (map_to_list reg).*2.

(** [handles.forEach(clearTimeout)] *)
Definition forEach_clearTimeout (handles : list positive) : M unit :=
  foldr (λ h rest, clearTimeout h;; rest) (mret tt) handles.

(** The cleanup returned by the effect, lines 176-180. *)
Definition cleanup : M unit :=
  assign_onmessage false;;
  registry ← gets typingTimeouts;
  forEach_clearTimeout (Object_values registry);;
  modify (set_typingTimeouts (λ _, ∅)).

Definition handler_installed (w : World) : bool :=
  match ws w with
  | Some s => onmessage_set s
  | None => false
  end.

(** React unmounting the hook: the cleanup of the effect runs (there is one
    when the effect installed the handler), and the hook is gone. *)
Definition unmount : M unit :=
  installed ← gets handler_installed;
  (if (installed : bool) then cleanup else mret tt);;
  modify (set_mounted false).

(** The setters of [useState].  An updater is run on the latest state; the
    updater of [handleTyping] has effects of its own.  When an updater
    throws, the state is not set and the setter itself returns: React
    catches the throw at the call and raises it again while rendering,
    where nothing catches it, and unmounts the hook. *)
Definition setReceivedMessages (updater : list ReceivedMessage → list ReceivedMessage) : M unit :=
  modify (set_receivedMessages updater).

Definition setTypingUsers (updater : list Val → M (list Val)) : M unit :=
  prev ← gets typingUsers;
  outcome ← attempt (updater prev);
  match outcome with
  | Return next => modify (set_typingUsers (λ _, next))
  | Thrown _ => unmount
  end.

Definition setActiveUsers (value : JValue) : M unit :=
  modify (set_activeUsers value).

(** [prev.filter((user) => user !== username)] *)
Definition without (user : Val) (prev : list Val) : list Val :=
  List.filter (λ u, negb (strict_equals u user)) prev.

(** The callback handed to [setTimeout], lines 116-119. *)
Definition expire (user : Val) : M unit :=
  setTypingUsers (λ prev, mret (without user prev));;
  key ← lift (ToPropertyKey user);
  modify (set_typingTimeouts (delete key)).

(** [handleTyping], lines 106-123.  The test on the registry entry is true
    for an own entry, which holds a handle; for a key that names a member of
    [Object.prototype] and has no own entry it is true as well, and
    [clearTimeout] of what is no handle does nothing. *)
Definition handleTyping (user : Val) : M unit :=
  setTypingUsers (λ prevUsers,
    if includes prevUsers user then mret prevUsers
    else
      let updated := prevUsers ++ [user] in
      key ← lift (ToPropertyKey user);
      registry ← gets typingTimeouts;
      match registry !! key with
      | Some h => clearTimeout h
      | None => mret tt
      end;;
      h ← setTimeout user 3000;
      modify (set_typingTimeouts (registry_set key h));;
      mret updated).

(** [JSON.parse(e.data)]: the decoded value at a fresh address, or a
    SyntaxError. *)
Definition JSON_parse (e : MessageEvent) : M Val :=
  match decoded e with
  | None => throw SyntaxError
  | Some v =>
      a ← gets next_addr;
      modify (set_next_addr (S a));;
      mret {| jv := v; addr := a |}
  end.

(** [data.k]; what is read from a frame lives at the frame's address. *)
Definition get (data : Val) (k : string) : M Val :=
  v ← lift (member (jv data) k);
  mret {| jv := v; addr := addr data |}.

(** [v === "label"], the test of a [case] of the [switch]. *)
Definition is_case (v : Val) (label : string) : bool := strict_equals v (str label).

(** The [switch] of the handler, lines 140-173. *)
Definition dispatch (data : Val) : M unit :=
  type ← get data "type";
  if is_case type "message" then
    logEvent "Message event:" (jv data);;
    id ← get data "id";
    sender ← get data "sender";
    content ← get data "content";
    media ← get data "media";
    seen_by ← get data "seen_by";
    timestamp ← get data "timestamp";
    setReceivedMessages (λ prev, prev ++
      [{| msg_type := "message"; msg_id := jv id; msg_sender := jv sender;
          msg_content := jv content; msg_media := jv media;
          msg_seen_by := jv seen_by; msg_timestamp := jv timestamp |}])
  else if is_case type "typing" then
    logEvent "Typing event:" (jv data);;
    user ← get data "username";
    handleTyping user
  else if is_case type "seen" then
    logEvent "Seen event:" (jv data)
  else if is_case type "user_status" then
    logEvent "Users Status:" (jv data);;
    active_users ← get data "active_users";
    setActiveUsers (nullish (jv active_users) (JArr []))
  else
    logEvent "Unhandled event:" (jv data).

(** [ws.onmessage], lines 131-174. *)
Definition onmessage (e : MessageEvent) : M unit :=
  λ w,
    match JSON_parse e w with
    | (Thrown _, w') => logEvent "Invalid JSON:" (JStr (data e)) w'
    | (Return data, w') => dispatch data w'
    end.

(** The effect body, lines 128-131: without a socket it does nothing (and
    registers no cleanup), with one it installs the handler. *)
Definition effect : M unit :=
  sock ← gets ws;
  match sock with
  | None => mret tt
  | Some _ => assign_onmessage true
  end.

(** [sendMessage], lines 188-196; a function without [return] gives
    [undefined]. *)
Definition sendMessage (message : SendMessageParams) (user : string) : M JValue :=
  sent ← sendWS (of_params message);
  (if (sent : bool) then
     logEvent "Message sent:" (of_params message);;
     setTypingUsers (λ prev, mret (without (str user) prev))
   else mret tt);;
  mret JUndefined.

(** [sendTypingUsers], lines 202-207. *)
Definition sendTypingUsers (user : string) : M JValue :=
  sendWS (JObj [("type", JStr "typing"); ("username", JStr user)]);;
  mret JUndefined.

(** [sendSeenBy], lines 213-218. *)
Definition sendSeenBy (ids : list Number) : M JValue :=
  sendWS (JObj [("type", JStr "seen"); ("message_ids", JArr (JNum <$> ids))]);;
  mret JUndefined.

(** ** Events of a session *)

Inductive Event :=
| Provide (r : ReadyState)          (* useWebSocket hands over the socket, or its state changes *)
| Effect                            (* React runs the effect *)
| Cleanup                           (* React runs the effect's cleanup *)
| Message (e : MessageEvent)        (* the socket receives a frame *)
| Elapse (ms : Z)                   (* time passes *)
| Fire (h : positive)               (* the browser runs a due timer *)
| SendMessage (message : SendMessageParams) (user : string)
| SendTypingUsers (user : string)
| SendSeenBy (ids : list Number).

Definition provide (r : ReadyState) (w : World) : World :=
  match ws w with
  | None => set_ws (Some {| readyState := r; onmessage_set := false; written := [] |}) w
  | Some s => set_ws (Some {| readyState := r; onmessage_set := onmessage_set s;
                              written := written s |}) w
  end.

Definition pending (h : positive) (w : World) : option Timer :=
  List.find (λ t, Pos.eqb (handle t) h) (timers w).

(** A one-shot timer that is due leaves the timer table and its callback
    runs; a handle that is not pending, or not yet due, runs nothing. *)
Definition fire (h : positive) (w : World) : World :=
  match pending h w with
  | Some t =>
      if Z.leb (due t) (clock w)
      then exec (expire (username t)) (exec (clearTimeout h) w)
      else w
  | None => w
  end.

(** One event.  A frame reaches the handler only while it is installed,
    there is a cleanup to run only after the effect installed it, and React
    runs the effect of a mounted hook only. *)
Definition step (ev : Event) (w : World) : World :=
  match ev with
  | Provide r => provide r w
  | Effect => if mounted w then exec effect w else w
  | Cleanup => if handler_installed w then exec cleanup w else w
  | Message e => if handler_installed w then exec (onmessage e) w else w
  | Elapse ms => if Z.leb 0 ms then set_clock (clock w + ms) w else w
  | Fire h => fire h w
  | SendMessage message user => exec (sendMessage message user) w
  | SendTypingUsers user => exec (sendTypingUsers user) w
  | SendSeenBy ids => exec (sendSeenBy ids) w
  end.

Definition run (trace : list Event) (w : World) : World :=
  foldl (λ w ev, step ev w) w trace.

(** What a consumer of the hook, or a later event, can tell apart: the
    messages, the typing set, the active users, the timer registry and the
    timers behind it. *)
Definition observable (w : World) :=
  (receivedMessages w, typingUsers w, activeUsers w, typingTimeouts w, timers w).

(** The frames written to the socket so far. *)
Definition wire (w : World) : list Text :=
  match ws w with
  | Some s => written s
  | None => []
  end.

(** The socket when it is there and open. *)
Definition open_socket (w : World) : option WebSocket :=
  match ws w with
  | Some s => if is_open (readyState s) then Some s else None
  | None => None
  end.

(** The typing set holds no value twice (in the sense of [includes]). *)
Fixpoint distinct (l : list Val) : bool :=
  match l with
  | [] => true
  | x :: rest => negb (existsb (λ e, same_value_zero x e) rest) && distinct rest
  end.

(** [m] never changes the part [f] of the world, whether it returns or
    throws. *)
Definition preserves {A B} (f : World → B) (m : M A) : Prop :=
  ∀ w, f (exec m w) = f w.

(** The entry the spec describes for a frame with the given properties:
    built from [id], [sender], [content], [media], [seen_by] and
    [timestamp], nothing defaulted. *)
Definition entry_of (props : list (string * JValue)) : ReceivedMessage :=
  {| msg_type := "message";
     msg_id := own "id" props;
     msg_sender := own "sender" props;
     msg_content := own "content" props;
     msg_media := own "media" props;
     msg_seen_by := own "seen_by" props;
     msg_timestamp := own "timestamp" props |}.

(** The entries a frame contributes by the spec: one when the frame parses
    and its [type] is ["message"], none otherwise. *)
Definition valid_message (e : MessageEvent) : list ReceivedMessage :=
  match decoded e with
  | Some (JObj props) =>
      match own "type" props with
      | JStr t => if String.eqb t "message" then [entry_of props] else []
      | _ => []
      end
  | _ => []
  end.

(** All frames of a list handed to the handler, one after the other. *)
Definition deliver (frames : list MessageEvent) (w : World) : World :=
  foldl (λ w e, exec (onmessage e) w) w frames.

(** Whatever [m] does, the part [f] of the world after it is related by [R]
    to the part before. *)
Definition respects {A B} (R : B → B → Prop) (f : World → B) (m : M A) : Prop :=
  ∀ w, R (f w) (f (exec m w)).

(** A typing set without duplicates stays so. *)
Definition stays_distinct (l l' : list Val) : Prop :=
  distinct l = true → distinct l' = true.

(** Every pending timer is the one the registry holds under the key of its
    username, or its username has the key ["__proto__"], under which the
    registry holds nothing. *)
Definition well_registered (p : list Timer * gmap string positive) : Prop :=
  p.2 !! "__proto__" = None
  ∧ ∀ t, t ∈ p.1 →
      ∃ key, ToPropertyKey (username t) = Return key
             ∧ (key = "__proto__" ∨ p.2 !! key = Some (handle t)).

Definition timer_state (w : World) : list Timer * gmap string positive :=
  (timers w, typingTimeouts w).

Definition registered (w : World) : Prop := well_registered (timer_state w).

Definition stays_registered (p p' : list Timer * gmap string positive) : Prop :=
  well_registered p → well_registered p'.

(** The typing set and the timers that can shrink it. *)
Definition typing_state (w : World) : list Val * list Timer :=
  (typingUsers w, timers w).

(** The user [name] is in the typing set, and no pending timer that would
    remove [name] is due before [T]. *)
Definition guarded (name : string) (T : Z) (p : list Val * list Timer) : Prop :=
  includes p.1 (str name) = true
  ∧ ∀ t, t ∈ p.2 → strict_equals (username t) (str name) = true → T ≤ due t.

Definition stays_guarded (name : string) (T : Z) (p p' : list Val * list Timer) : Prop :=
  guarded name T p → guarded name T p'.

(** [sendMessage] called for the user [name]. *)
Definition clears (name : string) (ev : Event) : bool :=
  match ev with
  | SendMessage _ user => String.eqb user name
  | _ => false
  end.

(** The frames an event writes to the socket: those of a send operation
    called while the socket is open. *)
Definition written_by (ev : Event) (w : World) : list Text :=
  match open_socket w, ev with
  | Some _, SendMessage message _ => [JSON_stringify (of_params message)]
  | Some _, SendTypingUsers user =>
      [JSON_stringify (JObj [("type", JStr "typing"); ("username", JStr user)])]
  | Some _, SendSeenBy ids =>
      [JSON_stringify (JObj [("type", JStr "seen"); ("message_ids", JArr (JNum <$> ids))])]
  | _, _ => []
  end.

(** The active users a frame announces: those of a frame that parses and has
    type ["user_status"]. *)
Definition status_update (e : MessageEvent) : option JValue :=
  match decoded e with
  | Some (JObj props) =>
      if is_case {| jv := own "type" props; addr := 0 |} "user_status"
      then Some (nullish (own "active_users" props) (JArr []))
      else None
  | _ => None
  end.

(** The pending timers are told apart by their handles, and the next handle
    is new. *)
Definition well_numbered (p : list Timer * positive) : Prop :=
  NoDup (handle <$> p.1) ∧ ∀ t, t ∈ p.1 → (handle t < p.2)%positive.

Definition handle_state (w : World) : list Timer * positive :=
  (timers w, next_handle w).

Definition stays_numbered (p p' : list Timer * positive) : Prop :=
  well_numbered p → well_numbered p'.

(** The log switch and the console. *)
Definition log_state (w : World) : bool * list (string * JValue) :=
  (log w, console w).

(** With the switch off, nothing is logged. *)
Definition stays_silent (p p' : bool * list (string * JValue)) : Prop :=
  p.1 = false → p' = p.

(** A ["typing"] frame whose [username] has no property key: the one frame
    on which the updater of [handleTyping] can throw. *)
Definition unprintable_username (e : MessageEvent) : bool :=
  match decoded e with
  | Some (JObj props) =>
      is_case {| jv := own "type" props; addr := 0 |} "typing"
      && match ToString (own "username" props) with
         | Some _ => false
         | None => true
         end
  | _ => false
  end.

(** The socket delivers such a frame. *)
Definition crashes (ev : Event) : bool :=
  match ev with
  | Message e => unprintable_username e
  | _ => false
  end.

(** Whether the handler is installed, and whether the hook is mounted. *)
Definition life (w : World) : bool * bool := (handler_installed w, mounted w).

(** A handler is installed on a mounted hook only. *)
Definition alive (p : bool * bool) : Prop := p.1 = true → p.2 = true.

Definition stays_alive (p p' : bool * bool) : Prop := alive p → alive p'.

(** ** Test data *)

Definition quote : string := String (Ascii.ascii_of_nat 34) "".

Definition quoted (s : string) : string := String.append quote (String.append s quote).

(** The text [{"type":"typing","username":"<user>"}] with its decoding. *)
Definition typing_frame (user : string) : MessageEvent :=
  {| data := String.concat "" ["{"; quoted "type"; ":"; quoted "typing"; ",";
                               quoted "username"; ":"; quoted user; "}"];
     decoded := Some (JObj [("type", JStr "typing"); ("username", JStr user)]) |}.

(** The text [{"type":"message","id":7}] with its decoding: a message frame
    without [sender] and [content]. *)
Definition bare_message_frame : MessageEvent :=
  {| data := String.concat "" ["{"; quoted "type"; ":"; quoted "message"; ",";
                               quoted "id"; ":7}"];
     decoded := Some (JObj [("type", JStr "message"); ("id", JNum "7")]) |}.

(** A session with an open socket and the handler installed. *)
Definition session (log : bool) : World :=
  run [Provide OPEN; Effect] (mount log).

(** ** Basic facts *)

Ltac js :=
  unfold setReceivedMessages, setTypingUsers, setActiveUsers, attempt,
    exec, completion, mbind, M_bind, bind, mret, M_ret, ret, gets,
    modify, lift, throw in *;
  simpl in *.

Lemma logEvent_result label payload w :
  logEvent label payload w =
    (Return tt,
     if log w then set_console (λ c, c ++ [(label, nullish payload (JStr ""))]) w
     else w).
Proof. unfold logEvent. js. by destruct (log w). Qed.

#[local] Arguments logEvent : simpl never.

Lemma is_case_other t a label :
  t ≠ JStr label → is_case {| jv := t; addr := a |} label = false.
Proof.
  intros Hne. unfold is_case, strict_equals. simpl.
  destruct t; try done.
  apply String.eqb_neq. congruence.
Qed.

Lemma onmessage_decoded e v w :
  decoded e = Some v →
  onmessage e w =
    dispatch {| jv := v; addr := next_addr w |} (set_next_addr (S (next_addr w)) w).
Proof. intros H. unfold onmessage, JSON_parse. rewrite H. by js. Qed.

Lemma onmessage_malformed e w :
  decoded e = None →
  onmessage e w = logEvent "Invalid JSON:" (JStr (data e)) w.
Proof. intros H. unfold onmessage, JSON_parse. rewrite H. by js. Qed.

Lemma exec_bind {A C} (m : M A) (k : A → M C) w :
  exec (m ≫= k) w =
    match m w with
    | (Return a, w') => exec (k a) w'
    | (Thrown _, w') => w'
    end.
Proof. unfold exec. js. by destruct (m w) as [[a|err] w']. Qed.

Lemma exec_then_ret {A C} (m : M A) (c : C) w : exec (m;; mret c) w = exec m w.
Proof. rewrite exec_bind. unfold exec. by destruct (m w) as [[a|err] w']. Qed.

Lemma completion_bind {A C} (m : M A) (k : A → M C) w :
  completion (m ≫= k) w =
    match m w with
    | (Return a, w') => completion (k a) w'
    | (Thrown err, _) => Thrown err
    end.
Proof. unfold completion. js. by destruct (m w) as [[a|err] w']. Qed.

Lemma get_result data k w :
  get data k w =
    match member (jv data) k with
    | Return v => (Return {| jv := v; addr := addr data |}, w)
    | Thrown err => (Thrown err, w)
    end.
Proof. unfold get. js. by destruct (member (jv data) k). Qed.

Section Preserves.
Context {B : Type} (f : World → B).

Lemma preserves_ret {A} (a : A) : preserves f (mret a).
Proof. by intros w. Qed.

Lemma preserves_gets {A} (g : World → A) : preserves f (gets g).
Proof. by intros w. Qed.

Lemma preserves_lift {A} (c : Completion A) : preserves f (lift c).
Proof. by intros w. Qed.

Lemma preserves_throw {A} (e : JsError) : preserves f (throw (A := A) e).
Proof. by intros w. Qed.

Lemma preserves_modify (g : World → World) :
  (∀ w, f (g w) = f w) → preserves f (modify g).
Proof. intros H w. apply H. Qed.

Lemma preserves_bind {A C} (m : M A) (k : A → M C) :
  preserves f m → (∀ a, preserves f (k a)) → preserves f (m ≫= k).
Proof.
  intros Hm Hk w. specialize (Hm w). unfold exec in *. js.
  destruct (m w) as [[a|err] w']; simpl in *; [|done].
  rewrite <- Hm. apply Hk.
Qed.

Lemma preserves_attempt {A} (m : M A) : preserves f m → preserves f (attempt m).
Proof. intros H w. apply H. Qed.

Lemma preserves_foldr {A} (step : A → M unit) (l : list A) :
  (∀ a, preserves f (step a)) →
  preserves f (foldr (λ a rest, step a;; rest) (mret tt) l).
Proof.
  intros H. induction l as [|a l IH]; simpl.
  - apply preserves_ret.
  - apply preserves_bind; [apply H | intros _; apply IH].
Qed.
End Preserves.

Ltac preserve_step :=
  first
    [ apply preserves_ret
    | apply preserves_gets
    | apply preserves_lift
    | apply preserves_throw
    | apply preserves_modify; intros ?; reflexivity
    | apply preserves_bind; [|intros ?]
    | match goal with
      | |- preserves _ (match ?x with _ => _ end) => destruct x
      end ].

Ltac preserve := repeat preserve_step.

Lemma logEvent_preserves {B} (f : World → B) label payload :
  (∀ g w, f (set_console g w) = f w) → preserves f (logEvent label payload).
Proof.
  intros H w. unfold exec. rewrite logEvent_result. simpl.
  destruct (log w); [apply H | done].
Qed.

Ltac frame_log := apply logEvent_preserves; intros ? ?; reflexivity.

(** Closes [k ∉ keys] for literal keys. *)
Ltac absent :=
  let H := fresh in
  simpl; intros H;
  repeat (apply elem_of_cons in H as [H|H]; [discriminate H|]);
  by apply elem_of_nil in H.

(** Closes a goal [f (exec m w) = f w] from the fact that [m] leaves [f]
    alone. *)
Ltac framed tac :=
  match goal with
  | |- ?f (exec ?m ?w) = ?f ?w =>
      let H := fresh in
      assert (H : preserves f m) by tac; apply H
  end.

Lemma assign_onmessage_preserves {B} (f : World → B) installed :
  (∀ s w, f (set_ws s w) = f w) → preserves f (assign_onmessage installed).
Proof. intros H w. unfold assign_onmessage, exec. simpl. by destruct (ws w). Qed.

Ltac frame_assign := apply assign_onmessage_preserves; intros ? ?; reflexivity.

Lemma forEach_clearTimeout_preserves {B} (f : World → B) handles :
  (∀ g w, f (set_timers g w) = f w) → preserves f (forEach_clearTimeout handles).
Proof. intros H. apply preserves_foldr. intros h w. apply H. Qed.

Ltac frame_clear := apply forEach_clearTimeout_preserves; intros ? ?; reflexivity.

Lemma effect_preserves {B} (f : World → B) :
  (∀ s w, f (set_ws s w) = f w) → preserves f effect.
Proof.
  intros H. unfold effect. apply preserves_bind; [apply preserves_gets|].
  intros [s|]; [by apply assign_onmessage_preserves | apply preserves_ret].
Qed.

Lemma cleanup_preserves {B} (f : World → B) :
  (∀ s w, f (set_ws s w) = f w) →
  (∀ g w, f (set_timers g w) = f w) →
  (∀ g w, f (set_typingTimeouts g w) = f w) →
  preserves f cleanup.
Proof.
  intros Hws Htm Ht. unfold cleanup.
  repeat first
    [ by apply assign_onmessage_preserves
    | by apply forEach_clearTimeout_preserves
    | apply preserves_modify; apply Ht
    | preserve_step ].
Qed.

Lemma unmount_preserves {B} (f : World → B) :
  (∀ s w, f (set_ws s w) = f w) →
  (∀ g w, f (set_timers g w) = f w) →
  (∀ g w, f (set_typingTimeouts g w) = f w) →
  (∀ b w, f (set_mounted b w) = f w) →
  preserves f unmount.
Proof.
  intros Hws Htm Ht Hm. unfold unmount.
  apply preserves_bind; [apply preserves_gets|]. intros installed.
  apply preserves_bind; [|intros _; by apply preserves_modify].
  destruct installed; [by apply cleanup_preserves | apply preserves_ret].
Qed.

(** A part of the world that the pieces of a setter leave alone is left
    alone by the setter. *)
Lemma setTypingUsers_preserves {B} (f : World → B) updater :
  (∀ g w, f (set_typingUsers g w) = f w) →
  (∀ prev, preserves f (updater prev)) →
  preserves f unmount →
  preserves f (setTypingUsers updater).
Proof.
  intros Hu Hupd Hunmount. unfold setTypingUsers.
  apply preserves_bind; [apply preserves_gets|]. intros prev.
  apply preserves_bind; [by apply preserves_attempt|].
  intros [next|err]; [by apply preserves_modify | done].
Qed.

Lemma setTypingUsers_pure (g : list Val → list Val) w :
  setTypingUsers (λ prev, mret (g prev)) w = (Return tt, set_typingUsers g w).
Proof. done. Qed.

Lemma handleTyping_preserves {B} (f : World → B) user :
  (∀ g w, f (set_typingUsers g w) = f w) →
  (∀ g w, f (set_timers g w) = f w) →
  (∀ g w, f (set_typingTimeouts g w) = f w) →
  (∀ h w, f (set_next_handle h w) = f w) →
  preserves f unmount →
  preserves f (handleTyping user).
Proof.
  intros Hu Htm Ht Hh Hunmount. unfold handleTyping.
  apply setTypingUsers_preserves; [done| |done]. intros prev.
  unfold clearTimeout, setTimeout.
  repeat first
    [ apply preserves_modify; first [apply Htm | apply Ht | apply Hh]
    | preserve_step ].
Qed.

Lemma sendWS_preserves {B} (f : World → B) payload :
  (∀ s w, f (set_ws s w) = f w) →
  (∀ g w, f (set_console g w) = f w) →
  preserves f (sendWS payload).
Proof.
  intros Hws Hc. unfold sendWS.
  repeat first
    [ by apply logEvent_preserves
    | apply preserves_modify; apply Hws
    | preserve_step ].
Qed.

Lemma sendMessage_preserves {B} (f : World → B) message user :
  (∀ s w, f (set_ws s w) = f w) →
  (∀ g w, f (set_console g w) = f w) →
  (∀ g w, f (set_typingUsers g w) = f w) →
  preserves f (sendMessage message user).
Proof.
  intros Hws Hc Hu. unfold sendMessage.
  apply preserves_bind; [by apply sendWS_preserves|]. intros sent.
  apply preserves_bind; [|intros _; apply preserves_ret].
  destruct sent; [|apply preserves_ret].
  apply preserves_bind; [by apply logEvent_preserves|]. intros _ w.
  unfold exec. rewrite (setTypingUsers_pure (without (str user))). apply Hu.
Qed.

Lemma handleTyping_preserves_messages user : preserves receivedMessages (handleTyping user).
Proof. apply handleTyping_preserves; try done. by apply unmount_preserves. Qed.

Lemma expire_preserves_messages user : preserves receivedMessages (expire user).
Proof.
  unfold expire. apply preserves_bind; [|intros _; preserve].
  intros w. unfold exec. by rewrite (setTypingUsers_pure (without user)).
Qed.

Lemma cleanup_preserves_messages : preserves receivedMessages cleanup.
Proof. unfold cleanup. repeat first [frame_assign | frame_clear | preserve_step]. Qed.

Lemma dispatch_message props a w :
  own "type" props = JStr "message" →
  dispatch {| jv := JObj props; addr := a |} w =
    (Return tt,
     set_receivedMessages (λ prev, prev ++ [entry_of props])
       (exec (logEvent "Message event:" (JObj props)) w)).
Proof.
  intros Ht. unfold dispatch, get. js. rewrite Ht. simpl.
  rewrite logEvent_result. simpl. done.
Qed.

Lemma dispatch_messages data w :
  receivedMessages (exec (dispatch data) w) =
    receivedMessages w ++
      match jv data with
      | JObj props =>
          match own "type" props with
          | JStr t => if String.eqb t "message" then [entry_of props] else []
          | _ => []
          end
      | _ => []
      end.
Proof.
  destruct data as [v a].
  assert (Hother : ∀ t, is_case {| jv := t; addr := a |} "message" = false →
    member v "type" = Return t →
    receivedMessages (exec (dispatch {| jv := v; addr := a |}) w) = receivedMessages w).
  { intros t Hc Ht. unfold dispatch. rewrite exec_bind, get_result.
    cbn [jv addr]. rewrite Ht, Hc.
    framed ltac:(repeat first
      [ frame_log | apply handleTyping_preserves_messages | preserve_step ]). }
  simpl. destruct v as [| | | | |items|props]; simpl;
    try (rewrite app_nil_r;
         first [ by apply (Hother JUndefined)
               | unfold dispatch, get; by rewrite exec_bind ]).
  destruct (own "type" props) as [| | | |t| |] eqn:Ht;
    try (rewrite app_nil_r; eapply Hother; [|simpl; by rewrite Ht]; done).
  destruct (String.eqb t "message") eqn:Heq.
  - apply String.eqb_eq in Heq. subst t.
    unfold exec. rewrite (dispatch_message _ _ _ Ht). simpl.
    f_equal. apply (logEvent_preserves receivedMessages). done.
  - rewrite app_nil_r. eapply Hother; [|simpl; by rewrite Ht].
    unfold is_case, strict_equals. simpl. done.
Qed.

Lemma onmessage_messages e w :
  receivedMessages (exec (onmessage e) w) = receivedMessages w ++ valid_message e.
Proof.
  unfold valid_message. destruct (decoded e) as [v|] eqn:Hd.
  - unfold exec. rewrite (onmessage_decoded _ _ _ Hd).
    etrans; [apply (dispatch_messages {| jv := v; addr := next_addr w |})|done].
  - unfold exec. rewrite (onmessage_malformed _ _ Hd). rewrite app_nil_r.
    apply (logEvent_preserves receivedMessages). done.
Qed.

Lemma sendWS_preserves_messages payload : preserves receivedMessages (sendWS payload).
Proof. unfold sendWS. repeat first [frame_log | preserve_step]. Qed.

Lemma fire_messages h w : receivedMessages (fire h w) = receivedMessages w.
Proof.
  unfold fire. destruct (pending h w) as [t|]; [|done].
  destruct (Z.leb (due t) (clock w)); [|done].
  rewrite expire_preserves_messages. by unfold clearTimeout.
Qed.

(** What one event does to the message list. *)
Lemma step_messages ev w :
  receivedMessages (step ev w) =
    receivedMessages w ++
      match ev with
      | Message e => if handler_installed w then valid_message e else []
      | _ => []
      end.
Proof.
  destruct ev; simpl; rewrite ?app_nil_r.
  - unfold provide. by destruct (ws w).
  - destruct (mounted w); [by apply effect_preserves | done].
  - destruct (handler_installed w); [apply cleanup_preserves_messages | done].
  - destruct (handler_installed w); [apply onmessage_messages | by rewrite app_nil_r].
  - by destruct (Z.leb 0 ms).
  - apply fire_messages.
  - by apply sendMessage_preserves.
  - framed ltac:(unfold sendTypingUsers;
      repeat first [apply sendWS_preserves_messages | preserve_step]).
  - framed ltac:(unfold sendSeenBy;
      repeat first [apply sendWS_preserves_messages | preserve_step]).
Qed.

Lemma valid_message_type e :
  Forall (λ m, msg_type m = "message") (valid_message e).
Proof.
  unfold valid_message. destruct (decoded e) as [[| | | | | |props]|]; try done.
  destruct (own "type" props); try done.
  destruct (String.eqb s "message"); [|done].
  by constructor.
Qed.

Lemma own_absent k props : k ∉ props.*1 → own k props = JUndefined.
Proof.
  induction props as [|[k' v] props IH]; simpl; [done|].
  intros Hk. apply not_elem_of_cons in Hk as [Hne Hk].
  destruct (String.eqb k k') eqn:Heq; [|by apply IH].
  apply String.eqb_eq in Heq. done.
Qed.

(** ** The cleanup, the unmount and [handleTyping], in full *)

Lemma filter_filter {A} (p q : A → bool) l :
  List.filter p (List.filter q l) = List.filter (λ x, q x && p x) l.
Proof.
  induction l as [|x l IH]; simpl; [done|].
  destruct (q x); simpl; [destruct (p x)|]; by rewrite IH.
Qed.

Lemma filter_all {A} (l : list A) : List.filter (λ _, true) l = l.
Proof. induction l as [|x l IH]; simpl; by rewrite ?IH. Qed.

(** Cancelling a list of handles never throws and leaves the timers whose
    handle is not in the list. *)
Lemma forEach_clearTimeout_result handles w :
  forEach_clearTimeout handles w =
    (Return tt,
     set_timers (List.filter (λ t, negb (existsb (Pos.eqb (handle t)) handles))) w).
Proof.
  unfold forEach_clearTimeout. revert w.
  induction handles as [|h handles IH]; intros w; simpl.
  - unfold set_timers. rewrite filter_all. by destruct w.
  - unfold clearTimeout at 1. js. rewrite IH. f_equal.
    unfold set_timers. simpl. rewrite filter_filter. f_equal.
    apply filter_ext. intros t. by rewrite negb_orb.
Qed.

(** What the cleanup does, in full. *)
Lemma cleanup_result w :
  cleanup w =
    (Return tt,
     set_typingTimeouts (λ _, ∅)
       (set_timers
          (List.filter
             (λ t, negb (existsb (Pos.eqb (handle t)) (Object_values (typingTimeouts w)))))
          (exec (assign_onmessage false) w))).
Proof.
  unfold cleanup, assign_onmessage. js. rewrite forEach_clearTimeout_result.
  simpl. by destruct (ws w).
Qed.

#[local] Arguments cleanup : simpl never.

(** The unmount never throws. *)
Lemma unmount_result w :
  unmount w =
    (Return tt, set_mounted false (if handler_installed w then exec cleanup w else w)).
Proof.
  unfold unmount. js. destruct (handler_installed w); [|done].
  by rewrite cleanup_result.
Qed.

#[local] Arguments unmount : simpl never.

Lemma handleTyping_present user w :
  includes (typingUsers w) user = true → handleTyping user w = (Return tt, w).
Proof.
  intros Hin. unfold handleTyping. js. rewrite Hin. by destruct w.
Qed.

(** What [handleTyping] does, in full. *)
Lemma handleTyping_result user w :
  handleTyping user w =
    if includes (typingUsers w) user then (Return tt, w)
    else match ToPropertyKey user with
         | Thrown err => (Return tt, exec unmount w)
         | Return key =>
             (Return tt,
              set_typingUsers (λ _, typingUsers w ++ [user])
                (set_typingTimeouts (registry_set key (next_handle w))
                   (set_next_handle (Pos.succ (next_handle w))
                      (set_timers
                         (λ l, l ++ [{| handle := next_handle w;
                                        due := clock w + 3000;
                                        username := user |}])
                         match typingTimeouts w !! key with
                         | Some old => exec (clearTimeout old) w
                         | None => w
                         end))))
         end.
Proof.
  destruct (includes (typingUsers w) user) eqn:Hin.
  - by apply handleTyping_present.
  - unfold handleTyping. js. rewrite Hin.
    destruct (ToPropertyKey user) as [key|err]; simpl.
    + by destruct (typingTimeouts w !! key).
    + by rewrite unmount_result.
Qed.

Lemma expire_result user w :
  exec (expire user) w =
    match ToPropertyKey user with
    | Return key =>
        set_typingTimeouts (delete key)
          (set_typingUsers (λ _, without user (typingUsers w)) w)
    | Thrown _ => set_typingUsers (λ _, without user (typingUsers w)) w
    end.
Proof.
  unfold expire. rewrite exec_bind, (setTypingUsers_pure (without user)).
  unfold exec. js. by destruct (ToPropertyKey user).
Qed.

(** ** The typing set *)

Section Respects.
Context {B : Type} (R : B → B → Prop) `{!PreOrder R} (f : World → B).

Lemma respects_preserves {A} (m : M A) : preserves f m → respects R f m.
Proof. intros H w. by rewrite H. Qed.

Lemma respects_bind {A C} (m : M A) (k : A → M C) :
  respects R f m → (∀ a, respects R f (k a)) → respects R f (m ≫= k).
Proof.
  intros Hm Hk w. specialize (Hm w). rewrite exec_bind. unfold exec in Hm.
  destruct (m w) as [[a|err] w']; simpl in *; [|done].
  etrans; [exact Hm | apply Hk].
Qed.
End Respects.

#[local] Instance stays_distinct_preorder : PreOrder stays_distinct.
Proof.
  split.
  - intros l H. exact H.
  - intros l1 l2 l3 H12 H23 H. by apply H23, H12.
Qed.

Ltac respect_step :=
  match goal with
  | |- respects ?R ?f (_ ≫= _) => apply (respects_bind R f); [|intros ?]
  | |- respects ?R ?f (match ?x with _ => _ end) => destruct x
  | |- respects ?R ?f _ =>
      apply (respects_preserves R f);
      first [ apply preserves_ret | apply preserves_gets | apply preserves_lift
            | apply preserves_throw
            | apply preserves_modify; intros ?; reflexivity
            | frame_log ]
  end.

Lemma existsb_snoc {A} (p : A → bool) l x :
  existsb p (l ++ [x]) = existsb p l || p x.
Proof. rewrite existsb_app. simpl. by rewrite orb_false_r. Qed.

Lemma distinct_snoc l x :
  distinct l = true → includes l x = false → distinct (l ++ [x]) = true.
Proof.
  unfold includes. induction l as [|y l IH]; simpl; [done|].
  intros [Hy Hl]%andb_true_iff [Hyx Hlx]%orb_false_iff.
  rewrite existsb_snoc, Hyx, orb_false_r, Hy. simpl. by apply IH.
Qed.

Lemma existsb_filter_false {A} (p q : A → bool) l :
  existsb p l = false → existsb p (List.filter q l) = false.
Proof.
  induction l as [|y l IH]; simpl; [done|].
  intros [Hy Hl]%orb_false_iff.
  destruct (q y); simpl; [rewrite Hy; simpl|]; by apply IH.
Qed.

Lemma distinct_filter (q : Val → bool) l :
  distinct l = true → distinct (List.filter q l) = true.
Proof.
  induction l as [|y l IH]; simpl; [done|].
  intros [Hy Hl]%andb_true_iff.
  destruct (q y); simpl; [|by apply IH].
  apply negb_true_iff in Hy.
  rewrite (existsb_filter_false _ _ _ Hy). simpl. by apply IH.
Qed.

(** What [handleTyping] does to the typing set. *)
Lemma handleTyping_typingUsers user w :
  typingUsers (exec (handleTyping user) w) =
    if includes (typingUsers w) user then typingUsers w
    else match ToPropertyKey user with
         | Return _ => typingUsers w ++ [user]
         | Thrown _ => typingUsers w
         end.
Proof.
  unfold exec. rewrite handleTyping_result.
  destruct (includes (typingUsers w) user); [done|].
  destruct (ToPropertyKey user) as [key|err]; [done|]. simpl.
  apply unmount_preserves; done.
Qed.

Lemma expire_typingUsers user w :
  typingUsers (exec (expire user) w) = without user (typingUsers w).
Proof. rewrite expire_result. by destruct (ToPropertyKey user). Qed.

Lemma handleTyping_distinct user : respects stays_distinct typingUsers (handleTyping user).
Proof.
  intros w Hd. rewrite handleTyping_typingUsers.
  destruct (includes (typingUsers w) user) eqn:Hin; [done|].
  destruct (ToPropertyKey user); [|done].
  by apply distinct_snoc.
Qed.

Lemma expire_distinct user : respects stays_distinct typingUsers (expire user).
Proof. intros w Hd. rewrite expire_typingUsers. by apply distinct_filter. Qed.

Lemma sendWS_preserves_typingUsers payload : preserves typingUsers (sendWS payload).
Proof. unfold sendWS. repeat first [frame_log | preserve_step]. Qed.

Lemma sendMessage_typingUsers message user w :
  typingUsers (exec (sendMessage message user) w) =
    match open_socket w with
    | Some _ => without (str user) (typingUsers w)
    | None => typingUsers w
    end.
Proof.
  unfold sendMessage, sendWS, open_socket. js.
  destruct (ws w) as [s|]; simpl.
  - destruct (is_open (readyState s)); simpl; rewrite logEvent_result; simpl;
      by destruct (log w).
  - rewrite logEvent_result. simpl. by destruct (log w).
Qed.

Lemma sendMessage_distinct message user :
  respects stays_distinct typingUsers (sendMessage message user).
Proof.
  intros w Hd. rewrite sendMessage_typingUsers.
  destruct (open_socket w); [by apply distinct_filter | done].
Qed.

Lemma onmessage_distinct e : respects stays_distinct typingUsers (onmessage e).
Proof.
  intros w. destruct (decoded e) as [v|] eqn:Hd.
  - unfold exec. rewrite (onmessage_decoded _ _ _ Hd).
    change (typingUsers w) with (typingUsers (set_next_addr (S (next_addr w)) w)).
    generalize (set_next_addr (S (next_addr w)) w).
    generalize {| jv := v; addr := next_addr w |}. clear. intros d.
    change (respects stays_distinct typingUsers (dispatch d)).
    unfold dispatch, get, setReceivedMessages, setActiveUsers.
    repeat first [ apply handleTyping_distinct | respect_step ].
  - unfold exec. rewrite (onmessage_malformed _ _ Hd).
    apply (respects_preserves stays_distinct typingUsers). frame_log.
Qed.

Lemma cleanup_preserves_typingUsers : preserves typingUsers cleanup.
Proof. unfold cleanup. repeat first [frame_assign | frame_clear | preserve_step]. Qed.

Lemma fire_typingUsers h w :
  typingUsers (fire h w) =
    match pending h w with
    | Some t => if Z.leb (due t) (clock w) then without (username t) (typingUsers w)
                else typingUsers w
    | None => typingUsers w
    end.
Proof.
  unfold fire. destruct (pending h w) as [t|]; [|done].
  destruct (Z.leb (due t) (clock w)); [|done].
  by rewrite expire_typingUsers.
Qed.

Lemma step_distinct ev w : stays_distinct (typingUsers w) (typingUsers (step ev w)).
Proof.
  destruct ev; simpl.
  - unfold provide. by destruct (ws w).
  - destruct (mounted w); [|done].
    intros Hd. etrans; [|exact Hd]. f_equal. by apply effect_preserves.
  - destruct (handler_installed w); [|done].
    by rewrite cleanup_preserves_typingUsers.
  - destruct (handler_installed w); [apply onmessage_distinct | done].
  - by destruct (Z.leb 0 ms).
  - rewrite fire_typingUsers. destruct (pending h w) as [t|]; [|done].
    destruct (Z.leb (due t) (clock w)); [|done].
    intros Hd. by apply distinct_filter.
  - apply sendMessage_distinct.
  - intros Hd. etrans; [|exact Hd]. f_equal.
    framed ltac:(unfold sendTypingUsers;
      repeat first [apply sendWS_preserves_typingUsers | preserve_step]).
  - intros Hd. etrans; [|exact Hd]. f_equal.
    framed ltac:(unfold sendSeenBy;
      repeat first [apply sendWS_preserves_typingUsers | preserve_step]).
Qed.

Lemma run_distinct trace w :
  stays_distinct (typingUsers w) (typingUsers (run trace w)).
Proof.
  revert w. induction trace as [|ev trace IH]; intros w; simpl; [done|].
  etrans; [apply step_distinct | apply IH].
Qed.

(** Without duplicates, a username occurs at most once. *)
Lemma distinct_at_most_once l name :
  distinct l = true →
  (length (List.filter (λ u, strict_equals u (str name)) l) ≤ 1)%nat.
Proof.
  induction l as [|x l IH]; simpl; [lia|].
  intros [Hx Hl]%andb_true_iff.
  destruct (strict_equals x (str name)) eqn:Hxn; [|by apply IH].
  simpl. apply negb_true_iff in Hx.
  assert (List.filter (λ u, strict_equals u (str name)) l = []) as ->; [|simpl; lia].
  clear IH Hl. induction l as [|y l IH]; simpl; [done|].
  simpl in Hx. apply orb_false_iff in Hx as [Hxy Hxl].
  destruct (strict_equals y (str name)) eqn:Hyn; [|by apply IH].
  exfalso. revert Hxy Hxn Hyn. unfold same_value_zero, strict_equals. simpl.
  destruct (jv x), (jv y); try done.
  intros Hne ->%String.eqb_eq ->%String.eqb_eq.
  by rewrite String.eqb_refl in Hne.
Qed.

(** ** Frames that cannot unmount the hook *)

Lemma is_case_addr t a b label :
  is_case {| jv := t; addr := a |} label = is_case {| jv := t; addr := b |} label.
Proof. unfold is_case, strict_equals. simpl. by destruct t. Qed.

Lemma is_case_str v label : is_case v label = true → jv v = JStr label.
Proof.
  unfold is_case, strict_equals. simpl. destruct (jv v); try done.
  by intros ->%String.eqb_eq.
Qed.

Lemma dispatch_typing props a w :
  own "type" props = JStr "typing" →
  dispatch {| jv := JObj props; addr := a |} w =
    handleTyping {| jv := own "username" props; addr := a |}
      (exec (logEvent "Typing event:" (JObj props)) w).
Proof.
  intros Ht. unfold dispatch, get. js. rewrite Ht. simpl.
  by rewrite logEvent_result.
Qed.

(** [handleTyping] for a username that has a property key touches the
    typing set, the timers, the registry and the next handle only. *)
Lemma handleTyping_printable {B} (f : World → B) user key :
  ToPropertyKey user = Return key →
  (∀ g w, f (set_typingUsers g w) = f w) →
  (∀ g w, f (set_timers g w) = f w) →
  (∀ g w, f (set_typingTimeouts g w) = f w) →
  (∀ h w, f (set_next_handle h w) = f w) →
  preserves f (handleTyping user).
Proof.
  intros Hkey Hu Htm Ht Hh w. unfold exec. rewrite handleTyping_result, Hkey.
  destruct (includes (typingUsers w) user); [done|]. simpl.
  rewrite Hu, Ht, Hh, Htm.
  destruct (typingTimeouts w !! key); [apply Htm | done].
Qed.

(** The handler on a frame other than a ["typing"] frame with an
    unprintable username touches neither the socket nor the mount. *)
Lemma onmessage_printable {B} (f : World → B) e :
  unprintable_username e = false →
  (∀ a w, f (set_next_addr a w) = f w) →
  (∀ g w, f (set_console g w) = f w) →
  (∀ g w, f (set_receivedMessages g w) = f w) →
  (∀ v w, f (set_activeUsers v w) = f w) →
  (∀ g w, f (set_typingUsers g w) = f w) →
  (∀ g w, f (set_timers g w) = f w) →
  (∀ g w, f (set_typingTimeouts g w) = f w) →
  (∀ h w, f (set_next_handle h w) = f w) →
  preserves f (onmessage e).
Proof.
  intros Hsafe Haddr Hc Hmsg Hact Hu Htm Ht Hh w.
  assert (Hlog : ∀ label payload, preserves f (logEvent label payload))
    by (intros; by apply logEvent_preserves).
  unfold unprintable_username in Hsafe.
  destruct (decoded e) as [v|] eqn:Hd.
  - unfold exec. rewrite (onmessage_decoded _ _ _ Hd).
    rewrite <- (Haddr (S (next_addr w)) w).
    generalize (set_next_addr (S (next_addr w)) w). generalize (next_addr w).
    clear w. intros a w.
    assert (Hother : ∀ t, is_case {| jv := t; addr := a |} "typing" = false →
      member v "type" = Return t →
      f (exec (dispatch {| jv := v; addr := a |}) w) = f w).
    { intros t Hcase Hty. unfold dispatch. rewrite exec_bind, get_result.
      cbn [jv addr]. rewrite Hty, Hcase. unfold setReceivedMessages, setActiveUsers.
      destruct (is_case {| jv := t; addr := a |} "message"); cbv iota;
        framed ltac:(repeat first
          [ apply Hlog
          | apply preserves_modify; first [apply Hmsg | apply Hact]
          | preserve_step ]). }
    destruct v as [| | | | |items|props];
      try first [ by apply (Hother JUndefined) | by (unfold dispatch; js) ].
    rewrite (is_case_addr _ 0 a) in Hsafe.
    destruct (is_case {| jv := own "type" props; addr := a |} "typing") eqn:Hcase.
    + apply is_case_str in Hcase. simpl in Hcase, Hsafe.
      destruct (ToString (own "username" props)) as [key|] eqn:Hkey; [|done].
      unfold exec. rewrite (dispatch_typing _ _ _ Hcase).
      etrans; [|apply (Hlog "Typing event:" (JObj props) w)].
      apply (handleTyping_printable f _ key); try done.
      unfold ToPropertyKey. simpl. by rewrite Hkey.
    + by apply (Hother (own "type" props)).
  - unfold exec. rewrite (onmessage_malformed _ _ Hd). apply Hlog.
Qed.

(** ** Inbound frames *)

(** C5: a frame whose payload is not valid JSON is discarded: the handler
    returns normally (nothing is thrown to the caller) and the messages, the
    typing set, the active users, the timer registry and the timers are as
    before; so are the socket and the clock. *)
Theorem malformed_frame_is_discarded (e : MessageEvent) (w : World) :
  decoded e = None →
  completion (onmessage e) w = Return tt
  ∧ observable (exec (onmessage e) w) = observable w
  ∧ ws (exec (onmessage e) w) = ws w
  ∧ clock (exec (onmessage e) w) = clock w.
Proof.
  intros H. unfold completion, exec. rewrite (onmessage_malformed _ _ H).
  rewrite logEvent_result. simpl.
  by destruct (log w).
Qed.

Lemma malformed_frame_is_discarded_witness :
  let e := {| data := "{oops"; decoded := None |} in
  completion (onmessage e) (session true) = Return tt
  ∧ observable (exec (onmessage e) (session true)) = observable (session true)
  ∧ ws (exec (onmessage e) (session true)) = ws (session true)
  ∧ clock (exec (onmessage e) (session true)) = clock (session true).
Proof. apply malformed_frame_is_discarded. reflexivity. Defined.

(** C8: a frame of type ["seen"], and a frame whose [type] is none of
    ["message"], ["typing"], ["user_status"], changes nothing that can be
    observed: messages, typing set, active users, timer registry and timers
    stay as they were, and the handler returns normally. *)
Theorem inert_frame_changes_nothing (e : MessageEvent) (v t : JValue) (w : World) :
  decoded e = Some v →
  member v "type" = Return t →
  t ≠ JStr "message" → t ≠ JStr "typing" → t ≠ JStr "user_status" →
  completion (onmessage e) w = Return tt
  ∧ observable (exec (onmessage e) w) = observable w.
Proof.
  intros Hd Ht Hm Hty Hu.
  unfold completion, exec. rewrite (onmessage_decoded _ _ _ Hd).
  unfold dispatch, get. js. rewrite Ht. simpl.
  rewrite (is_case_other t _ "message"), (is_case_other t _ "typing"),
    (is_case_other t _ "user_status") by done.
  destruct (is_case _ "seen"); rewrite logEvent_result; simpl;
    by destruct (log w).
Qed.

Lemma inert_frame_changes_nothing_witness :
  let e := {| data := "{}"; decoded := Some (JObj [("type", JStr "seen")]) |} in
  completion (onmessage e) (session true) = Return tt
  ∧ observable (exec (onmessage e) (session true)) = observable (session true).
Proof.
  apply (inert_frame_changes_nothing _ (JObj [("type", JStr "seen")]) (JStr "seen"));
    done.
Defined.

(** C4: the message list after any sequence of frames handed to the handler
    is the list before it followed by one entry per frame that parses and
    has type ["message"], in arrival order, and the hook is still mounted
    with its handler as before (no frame of the sequence being a ["typing"]
    frame whose username cannot be turned into a string, which would take
    the hook down); an entry is built from the
    frame's [id], [sender], [content], [media], [seen_by] and [timestamp],
    and a field the frame lacks is [undefined] in the entry; every event of a
    session (frame, timer, send action, effect, cleanup) keeps the entries
    that are there, in place, and only a delivered frame appends. *)
Theorem message_list_is_an_append_only_log :
  (∀ frames w,
     Forall (λ e, unprintable_username e = false) frames →
     receivedMessages (deliver frames w) =
       receivedMessages w ++ concat (valid_message <$> frames)
     ∧ mounted (deliver frames w) = mounted w
     ∧ handler_installed (deliver frames w) = handler_installed w)
  ∧ (∀ e props,
       decoded e = Some (JObj props) → own "type" props = JStr "message" →
       valid_message e = [entry_of props])
  ∧ (∀ k props, k ∉ props.*1 → own k props = JUndefined)
  ∧ (∀ ev w,
       receivedMessages (step ev w) =
         receivedMessages w ++
           match ev with
           | Message e => if handler_installed w then valid_message e else []
           | _ => []
           end)
  ∧ (∀ trace w, receivedMessages w `prefix_of` receivedMessages (run trace w)).
Proof.
  split; [|split; [|split; [|split]]].
  - intros frames. induction frames as [|e frames IH]; intros w Hframes; simpl.
    + by rewrite app_nil_r.
    + apply Forall_cons in Hframes as [He Hframes].
      destruct (IH (exec (onmessage e) w) Hframes) as (-> & -> & ->).
      rewrite onmessage_messages, app_assoc.
      by rewrite (onmessage_printable mounted), (onmessage_printable handler_installed).
  - intros e props Hd Ht. unfold valid_message. by rewrite Hd, Ht.
  - apply own_absent.
  - apply step_messages.
  - intros trace. induction trace as [|ev trace IH]; intros w; simpl; [done|].
    etrans; [|apply IH]. rewrite step_messages. by apply prefix_app_r.
Qed.

Lemma message_list_is_an_append_only_log_witness :
  receivedMessages
    (deliver [bare_message_frame; {| data := "{oops"; decoded := None |};
              typing_frame "alice"; bare_message_frame] (session false)) =
    [entry_of [("type", JStr "message"); ("id", JNum "7")];
     entry_of [("type", JStr "message"); ("id", JNum "7")]]
  ∧ mounted
      (deliver [bare_message_frame; {| data := "{oops"; decoded := None |};
                typing_frame "alice"; bare_message_frame] (session false)) = true
  ∧ valid_message bare_message_frame =
      [entry_of [("type", JStr "message"); ("id", JNum "7")]]
  ∧ own "sender" [("type", JStr "message"); ("id", JNum "7")] = JUndefined.
Proof.
  destruct message_list_is_an_append_only_log as (Hlog & Hvalid & Habsent & _).
  assert (Hframes : Forall (λ e, unprintable_username e = false)
            [bare_message_frame; {| data := "{oops"; decoded := None |};
             typing_frame "alice"; bare_message_frame])
    by (repeat constructor).
  destruct (Hlog _ (session false) Hframes) as (Hlist & Hmounted & _).
  split; [|split; [|split]].
  - rewrite Hlist. reflexivity.
  - rewrite Hmounted. reflexivity.
  - apply Hvalid; reflexivity.
  - apply Habsent. absent.
Defined.

(** C10: the handler checks none of the fields of a ["message"] frame: every
    frame that parses and has type ["message"] appends an entry whose
    [sender] and [content] are what the frame holds, [undefined] when the
    frame lacks them; and every entry of the message list of a session has
    type ["message"]. *)
Theorem message_frames_are_not_validated :
  (∀ e props w,
     decoded e = Some (JObj props) → own "type" props = JStr "message" →
     completion (onmessage e) w = Return tt
     ∧ ∃ m, receivedMessages (exec (onmessage e) w) = receivedMessages w ++ [m]
            ∧ msg_type m = "message"
            ∧ msg_sender m = own "sender" props
            ∧ msg_content m = own "content" props
            ∧ ("sender" ∉ props.*1 → msg_sender m = JUndefined)
            ∧ ("content" ∉ props.*1 → msg_content m = JUndefined))
  ∧ (∀ log trace,
       Forall (λ m, msg_type m = "message") (receivedMessages (run trace (mount log)))).
Proof.
  split.
  - intros e props w Hd Ht. split.
    + unfold completion. rewrite (onmessage_decoded _ _ _ Hd).
      by rewrite (dispatch_message _ _ _ Ht).
    + exists (entry_of props). rewrite onmessage_messages.
      unfold valid_message. rewrite Hd, Ht. simpl.
      repeat split; try done; apply own_absent.
  - intros log trace.
    assert (Hinv : ∀ w, Forall (λ m, msg_type m = "message") (receivedMessages w) →
              Forall (λ m, msg_type m = "message") (receivedMessages (run trace w))).
    { induction trace as [|ev trace IH]; intros w Hw; simpl; [done|].
      apply IH. rewrite step_messages. apply Forall_app. split; [done|].
      destruct ev; try done.
      destruct (handler_installed w); [apply valid_message_type | done]. }
    apply Hinv. simpl. done.
Qed.

Lemma message_frames_are_not_validated_witness :
  completion (onmessage bare_message_frame) (session false) = Return tt
  ∧ ∃ m, receivedMessages (exec (onmessage bare_message_frame) (session false)) =
           receivedMessages (session false) ++ [m]
         ∧ msg_type m = "message"
         ∧ msg_sender m = JUndefined
         ∧ msg_content m = JUndefined.
Proof.
  destruct message_frames_are_not_validated as [Happend _].
  destruct (Happend bare_message_frame [("type", JStr "message"); ("id", JNum "7")]
              (session false) eq_refl eq_refl) as (Hc & m & Hm & Hty & _ & _ & Hs & Hct).
  split; [exact Hc|]. exists m. repeat split; try done.
  - apply Hs. absent.
  - apply Hct. absent.
Defined.

(** ** Active users *)

(** C7: a ["user_status"] frame replaces the active users by the frame's
    [active_users], and by the empty array when the frame has none ([null]
    counts as none); the previous value plays no part.  After a frame with
    ["a"] and ["b"] and a frame with none, the active users are the empty
    array. *)
Theorem user_status_replaces_active_users :
  (∀ e props w,
     decoded e = Some (JObj props) → own "type" props = JStr "user_status" →
     completion (onmessage e) w = Return tt
     ∧ activeUsers (exec (onmessage e) w) = nullish (own "active_users" props) (JArr [])
     ∧ (∀ users, own "active_users" props = JArr users →
                 activeUsers (exec (onmessage e) w) = JArr users)
     ∧ ("active_users" ∉ props.*1 → activeUsers (exec (onmessage e) w) = JArr []))
  ∧ (∀ w text1 text2,
       activeUsers
         (deliver
            [ {| data := text1;
                 decoded := Some (JObj [("type", JStr "user_status");
                                        ("active_users", JArr [JStr "a"; JStr "b"])]) |};
              {| data := text2;
                 decoded := Some (JObj [("type", JStr "user_status");
                                        ("active_users", JArr [])]) |} ] w) = JArr []).
Proof.
  assert (Hone : ∀ e props w,
     decoded e = Some (JObj props) → own "type" props = JStr "user_status" →
     onmessage e w =
       (Return tt,
        set_activeUsers (nullish (own "active_users" props) (JArr []))
          (exec (logEvent "Users Status:" (JObj props))
             (set_next_addr (S (next_addr w)) w)))).
  { intros e props w Hd Ht. rewrite (onmessage_decoded _ _ _ Hd).
    unfold dispatch, get. js. rewrite Ht. simpl.
    by rewrite logEvent_result. }
  split.
  - intros e props w Hd Ht. unfold completion, exec. rewrite (Hone _ _ _ Hd Ht). simpl.
    repeat split; try done.
    + by intros users ->.
    + intros Hk. by rewrite (own_absent _ _ Hk).
  - intros w text1 text2. unfold deliver, exec. simpl.
    by erewrite !Hone by done.
Qed.

Lemma user_status_replaces_active_users_witness :
  let e := {| data := "{}"; decoded := Some (JObj [("type", JStr "user_status")]) |} in
  let w := set_activeUsers (JArr [JStr "a"]) (session true) in
  completion (onmessage e) w = Return tt
  ∧ activeUsers (exec (onmessage e) w) = JArr [].
Proof.
  destruct user_status_replaces_active_users as [Hone _].
  destruct (Hone {| data := "{}"; decoded := Some (JObj [("type", JStr "user_status")]) |}
              [("type", JStr "user_status")]
              (set_activeUsers (JArr [JStr "a"]) (session true)) eq_refl eq_refl)
    as (Hc & _ & _ & Habsent).
  split; [exact Hc|]. apply Habsent. absent.
Defined.

(** ** The typing set, checked *)

(** C9: the typing set never holds the same username twice.  Handling a
    ["typing"] frame, a timer running its callback, and the clearing done by
    [sendMessage] each turn a typing set without duplicates into one without
    duplicates; so does every event of a session; and in every state a
    session can reach from mount, the typing set is without duplicates and
    any given username occurs in it at most once. *)
Theorem typing_set_never_holds_a_username_twice :
  (∀ user w, distinct (typingUsers w) = true →
             distinct (typingUsers (exec (handleTyping user) w)) = true)
  ∧ (∀ user w, distinct (typingUsers w) = true →
               distinct (typingUsers (exec (expire user) w)) = true)
  ∧ (∀ message user w, distinct (typingUsers w) = true →
                       distinct (typingUsers (exec (sendMessage message user) w)) = true)
  ∧ (∀ ev w, distinct (typingUsers w) = true → distinct (typingUsers (step ev w)) = true)
  ∧ (∀ log trace name,
       let users := typingUsers (run trace (mount log)) in
       distinct users = true
       ∧ (length (List.filter (λ u, strict_equals u (str name)) users) ≤ 1)%nat).
Proof.
  split; [|split; [|split; [|split]]].
  - intros user w. apply handleTyping_distinct.
  - intros user w. apply expire_distinct.
  - intros message user w. apply sendMessage_distinct.
  - intros ev w. apply step_distinct.
  - intros log trace name users.
    assert (Hd : distinct users = true) by by apply run_distinct.
    split; [exact Hd | by apply distinct_at_most_once].
Qed.

Lemma typing_set_never_holds_a_username_twice_witness :
  let w := exec (onmessage (typing_frame "alice")) (session false) in
  typingUsers w = [{| jv := JStr "alice"; addr := 1 |}]
  ∧ distinct (typingUsers (exec (handleTyping (str "alice")) w)) = true
  ∧ distinct (typingUsers (exec (handleTyping (str "bob")) w)) = true
  ∧ distinct (typingUsers (step (Fire 1) (step (Elapse 3000) w))) = true.
Proof.
  destruct typing_set_never_holds_a_username_twice as (Htyping & _ & _ & Hstep & _).
  split; [reflexivity|]. split; [|split].
  - apply Htyping. reflexivity.
  - apply Htyping. reflexivity.
  - apply Hstep. reflexivity.
Defined.

(** ** Sending *)

Lemma sendWS_result payload w :
  sendWS payload w =
    match open_socket w with
    | Some s =>
        (Return true,
         set_ws (Some (send (match payload with
                             | JStr text => Lit text
                             | _ => JSON_stringify payload
                             end) s)) w)
    | None => (Return false, exec (logEvent "WebSocket not connected" JUndefined) w)
    end.
Proof.
  unfold sendWS, open_socket. js.
  destruct (ws w) as [s|]; simpl.
  - destruct (is_open (readyState s)); simpl; [done|].
    by rewrite logEvent_result.
  - by rewrite logEvent_result.
Qed.

#[local] Arguments sendWS : simpl never.

Lemma open_socket_wire w s : open_socket w = Some s → wire w = written s.
Proof.
  unfold open_socket, wire. destruct (ws w) as [s'|]; [|done].
  destruct (is_open (readyState s')); [|done]. by intros [= ->].
Qed.

Lemma includes_without name l : includes (without (str name) l) (str name) = false.
Proof.
  unfold includes, without. induction l as [|x l IH]; simpl; [done|].
  destruct (strict_equals x (str name)) eqn:Hx; simpl; [done|].
  rewrite IH, orb_false_r. revert Hx.
  unfold same_value_zero, strict_equals. simpl. by destruct (jv x).
Qed.

(** What [sendMessage] does, in full. *)
Lemma sendMessage_result message user w :
  sendMessage message user w =
    match open_socket w with
    | Some s =>
        (Return JUndefined,
         set_typingUsers (λ _, without (str user) (typingUsers w))
           (exec (logEvent "Message sent:" (of_params message))
              (set_ws (Some (send (JSON_stringify (of_params message)) s)) w)))
    | None =>
        (Return JUndefined, exec (logEvent "WebSocket not connected" JUndefined) w)
    end.
Proof.
  unfold sendMessage. js. rewrite sendWS_result.
  destruct (open_socket w) as [s|]; simpl; [|done].
  rewrite logEvent_result. simpl. by destruct (log w).
Qed.

(** C3: [sendMessage(payload, U)] on an open connection writes the payload
    (one frame, the payload printed as JSON) and removes U from the typing
    set at once, whatever timers are pending: they and their registry are
    left as they are, as are the messages and the active users.  On a
    connection that is not open nothing is written, and messages, typing
    set, active users, registry and timers are unchanged.  In both cases the
    call returns normally. *)
Theorem sendMessage_clears_the_sender_only_when_sent
    (message : SendMessageParams) (user : string) (w : World) :
  let w' := exec (sendMessage message user) w in
  (∀ s, open_socket w = Some s →
        wire w' = wire w ++ [JSON_stringify (of_params message)]
        ∧ typingUsers w' = without (str user) (typingUsers w)
        ∧ includes (typingUsers w') (str user) = false
        ∧ receivedMessages w' = receivedMessages w
        ∧ activeUsers w' = activeUsers w
        ∧ typingTimeouts w' = typingTimeouts w
        ∧ timers w' = timers w)
  ∧ (open_socket w = None → ws w' = ws w ∧ observable w' = observable w)
  ∧ completion (sendMessage message user) w = Return JUndefined.
Proof.
  unfold exec, completion. rewrite sendMessage_result. split; [|split].
  - intros s Hs. rewrite Hs, (open_socket_wire _ _ Hs). simpl.
    unfold exec. rewrite logEvent_result. simpl.
    destruct (log w); simpl; repeat split; try done; apply includes_without.
  - intros Hs. rewrite Hs. simpl. unfold exec. rewrite logEvent_result. simpl.
    by destruct (log w).
  - by destruct (open_socket w).
Qed.

Lemma sendMessage_clears_the_sender_only_when_sent_witness :
  let message := {| sender_id := "7"; content := "hi"; media := JUndefined |} in
  let w := exec (onmessage (typing_frame "alice")) (session false) in
  let w' := exec (sendMessage message "alice") w in
  wire w' = [JSON_stringify (of_params message)]
  ∧ typingUsers w' = []
  ∧ timers w' = timers w
  ∧ observable (exec (sendMessage message "alice") (mount true)) = observable (mount true).
Proof.
  intros message w w'.
  destruct (sendMessage_clears_the_sender_only_when_sent message "alice" w)
    as (Hopen & _ & _).
  destruct (Hopen {| readyState := OPEN; onmessage_set := true; written := [] |} eq_refl)
    as (Hwire & Htyping & _ & _ & _ & _ & Htimers).
  destruct (sendMessage_clears_the_sender_only_when_sent message "alice" (mount true))
    as (_ & Hclosed & _).
  destruct (Hclosed eq_refl) as [_ Hobs].
  split; [exact Hwire|]. split; [exact Htyping|]. split; [exact Htimers | exact Hobs].
Defined.

(** The three public send operations return [undefined], not a boolean: on
    a hook without an open socket [sendTypingUsers] does not return [false],
    and on an open one it does not return [true]. *)
Lemma public_send_returns_no_boolean :
  completion (sendTypingUsers "alice") (mount false) ≠ Return (JBool false)
  ∧ completion (sendTypingUsers "alice") (session false) ≠ Return (JBool true).
Proof. split; discriminate. Qed.

(** C2, amended: each of [sendMessage], [sendTypingUsers] and [sendSeenBy]
    writes no frame when the connection is not open and writes exactly one
    frame of the right shape when it is open; in both cases it returns
    [undefined], so the caller cannot tell the two apart by the result.
    The boolean ([false] when not open, [true] when open) is the result of
    the inner [sendWS] only. *)
Theorem send_operations_write_only_when_open (w : World) :
  (∀ s, open_socket w = Some s →
     (∀ message user,
        completion (sendMessage message user) w = Return JUndefined
        ∧ wire (exec (sendMessage message user) w) =
            wire w ++ [JSON_stringify (of_params message)])
     ∧ (∀ user,
          completion (sendTypingUsers user) w = Return JUndefined
          ∧ wire (exec (sendTypingUsers user) w) =
              wire w ++ [JSON_stringify
                           (JObj [("type", JStr "typing"); ("username", JStr user)])])
     ∧ (∀ ids,
          completion (sendSeenBy ids) w = Return JUndefined
          ∧ wire (exec (sendSeenBy ids) w) =
              wire w ++ [JSON_stringify
                           (JObj [("type", JStr "seen");
                                  ("message_ids", JArr (JNum <$> ids))])])
     ∧ (∀ payload, completion (sendWS payload) w = Return true))
  ∧ (open_socket w = None →
     (∀ message user,
        completion (sendMessage message user) w = Return JUndefined
        ∧ ws (exec (sendMessage message user) w) = ws w)
     ∧ (∀ user,
          completion (sendTypingUsers user) w = Return JUndefined
          ∧ ws (exec (sendTypingUsers user) w) = ws w)
     ∧ (∀ ids,
          completion (sendSeenBy ids) w = Return JUndefined
          ∧ ws (exec (sendSeenBy ids) w) = ws w)
     ∧ (∀ payload, completion (sendWS payload) w = Return false)).
Proof.
  split.
  - intros s Hs. pose proof (open_socket_wire _ _ Hs) as Hw.
    repeat split.
    + unfold completion. by rewrite sendMessage_result, Hs.
    + unfold exec. rewrite sendMessage_result, Hs, Hw. simpl.
      unfold exec. rewrite logEvent_result. simpl. by destruct (log w).
    + unfold sendTypingUsers. by rewrite completion_bind, sendWS_result, Hs.
    + unfold sendTypingUsers. by rewrite exec_bind, sendWS_result, Hs, Hw.
    + unfold sendSeenBy. by rewrite completion_bind, sendWS_result, Hs.
    + unfold sendSeenBy. by rewrite exec_bind, sendWS_result, Hs, Hw.
    + intros payload. unfold completion. by rewrite sendWS_result, Hs.
  - intros Hs.
    assert (Hlog : ∀ label payload, ws (logEvent label payload w).2 = ws w).
    { intros. rewrite logEvent_result. simpl. by destruct (log w). }
    repeat split.
    + unfold completion. by rewrite sendMessage_result, Hs.
    + unfold exec. rewrite sendMessage_result, Hs. simpl. apply Hlog.
    + unfold sendTypingUsers. by rewrite completion_bind, sendWS_result, Hs.
    + unfold sendTypingUsers. rewrite exec_bind, sendWS_result, Hs. apply Hlog.
    + unfold sendSeenBy. by rewrite completion_bind, sendWS_result, Hs.
    + unfold sendSeenBy. rewrite exec_bind, sendWS_result, Hs. apply Hlog.
    + intros payload. unfold completion. by rewrite sendWS_result, Hs.
Qed.

Lemma send_operations_write_only_when_open_witness :
  wire (exec (sendSeenBy ["3"; "4"]) (session false)) =
    [JSON_stringify (JObj [("type", JStr "seen");
                           ("message_ids", JArr [JNum "3"; JNum "4"])])]
  ∧ completion (sendSeenBy ["3"; "4"]) (session false) = Return JUndefined
  ∧ ws (exec (sendTypingUsers "alice") (step (Provide CLOSED) (session false))) =
      ws (step (Provide CLOSED) (session false))
  ∧ completion (sendTypingUsers "alice") (step (Provide CLOSED) (session false)) =
      Return JUndefined.
Proof.
  destruct (send_operations_write_only_when_open (session false)) as [Hopen _].
  destruct (Hopen {| readyState := OPEN; onmessage_set := true; written := [] |} eq_refl)
    as (_ & _ & Hseen & _).
  destruct (send_operations_write_only_when_open (step (Provide CLOSED) (session false)))
    as [_ Hclosed].
  destruct (Hclosed eq_refl) as (_ & Htyping & _).
  destruct (Hseen ["3"; "4"]) as [Hc Hw]. destruct (Htyping "alice") as [Hc' Hw'].
  split; [exact Hw|]. split; [exact Hc|]. split; [exact Hw' | exact Hc'].
Defined.

(** ** The expiry window *)

(** C1, at a run the code can see: two ["typing"] frames for ["alice"], the
    second 2000ms after the first.  The second frame finds her in the typing
    set and returns before the timer code: the one timer still has the due
    time of the first frame, it runs at 3000ms, and her entry is gone
    1000ms after the latest frame, not 3000ms. *)
Theorem repeated_typing_frame_does_not_restart_the_timer :
  let w1 := step (Message (typing_frame "alice")) (session false) in
  let w2 := step (Message (typing_frame "alice")) (step (Elapse 2000) w1) in
  let w3 := step (Fire 1) (step (Elapse 1000) w2) in
  timers w1 = [{| handle := 1; due := 3000;
                  username := {| jv := JStr "alice"; addr := 1 |} |}]
  ∧ clock w2 = 2000
  ∧ timers w2 = timers w1
  ∧ typingUsers w2 = [{| jv := JStr "alice"; addr := 1 |}]
  ∧ clock w3 = 3000
  ∧ typingUsers w3 = [].
Proof. repeat split. Qed.

(** ** Teardown *)

(** C6, at a run the code can see: a ["typing"] frame for the username
    ["__proto__"], then the cleanup.  The assignment into the registry left
    no own entry for that key, so the cleanup detaches the handler and
    empties the registry but does not cancel the timer; when it runs, the
    typing set changes after teardown.  (For the username ["alice"] the same
    run leaves no timer behind.) *)
Theorem cleanup_misses_the_timer_of_proto :
  let w1 := step (Message (typing_frame "__proto__")) (session false) in
  let w2 := step Cleanup w1 in
  let w3 := step (Fire 1) (step (Elapse 3000) w2) in
  typingTimeouts w1 = ∅
  ∧ handler_installed w2 = false
  ∧ typingTimeouts w2 = ∅
  ∧ timers w2 = [{| handle := 1; due := 3000;
                    username := {| jv := JStr "__proto__"; addr := 1 |} |}]
  ∧ typingUsers w2 = [{| jv := JStr "__proto__"; addr := 1 |}]
  ∧ typingUsers w3 = []
  ∧ timers (step Cleanup (step (Message (typing_frame "alice")) (session false))) = [].
Proof. repeat split. Qed.

(** ** Timers and their registry *)

Lemma elem_of_bfilter {A} (p : A → bool) l x :
  x ∈ List.filter p l ↔ x ∈ l ∧ p x = true.
Proof. rewrite !list_elem_of_In. apply filter_In. Qed.

Lemma registry_set_proto key h reg :
  reg !! "__proto__" = None → registry_set key h reg !! "__proto__" = None.
Proof.
  intros H. unfold registry_set.
  destruct (String.eqb key "__proto__") eqn:Hk; [done|].
  rewrite lookup_insert_ne; [done|].
  intros ->. by rewrite String.eqb_refl in Hk.
Qed.

Lemma pending_elem h w t : pending h w = Some t → t ∈ timers w ∧ handle t = h.
Proof.
  unfold pending. intros Hf. apply find_some in Hf as [Hin Heq].
  split; [by apply list_elem_of_In | by apply Pos.eqb_eq].
Qed.

Lemma fire_registered h w : registered w → registered (fire h w).
Proof.
  intros [Hproto Hreg]. unfold fire. destruct (pending h w) as [t|] eqn:Hp; [|done].
  destruct (Z.leb (due t) (clock w)); [|done].
  apply pending_elem in Hp as [Ht Hh].
  rewrite expire_result.
  destruct (Hreg t Ht) as (key & Hkey & Hcase). rewrite Hkey.
  split; simpl.
  { destruct (decide (key = "__proto__")) as [->|Hne].
    - apply lookup_delete_eq.
    - by rewrite lookup_delete_ne. }
  intros t' [Ht' Hne]%elem_of_bfilter.
  apply negb_true_iff, Pos.eqb_neq in Hne.
  destruct (Hreg t' Ht') as (k' & Hk' & Hcase'). exists k'. split; [done|].
  destruct Hcase' as [->|Hlook']; [by left|]. right.
  rewrite lookup_delete_ne; [done|].
  intros ->. destruct Hcase as [->|Hlook]; congruence.
Qed.

Lemma elem_of_Object_values (reg : gmap string positive) h :
  h ∈ Object_values reg ↔ ∃ key, reg !! key = Some h.
Proof.
  unfold Object_values. rewrite list_elem_of_fmap. split.
  - intros ([key h'] & -> & Hin). exists key. by apply elem_of_map_to_list.
  - intros [key Hkey]. exists (key, h). split; [done|]. by apply elem_of_map_to_list.
Qed.

Lemma cleanup_timers w t :
  t ∈ timers (exec cleanup w) ↔
    t ∈ timers w ∧ ∀ key, typingTimeouts w !! key ≠ Some (handle t).
Proof.
  unfold exec at 1. rewrite cleanup_result.
  unfold set_typingTimeouts, set_timers. cbn [snd timers].
  rewrite (assign_onmessage_preserves timers false (λ _ _, eq_refl) w).
  rewrite elem_of_bfilter, negb_true_iff. split.
  - intros [Ht Hno]. split; [done|]. intros key Hkey.
    apply not_true_iff_false in Hno. apply Hno.
    apply existsb_exists. exists (handle t). split; [|apply Pos.eqb_refl].
    apply list_elem_of_In, elem_of_Object_values. by exists key.
  - intros [Ht Hno]. split; [done|]. apply not_true_iff_false.
    intros (h & Hin & Heq%Pos.eqb_eq)%existsb_exists. subst h.
    apply list_elem_of_In, elem_of_Object_values in Hin as [key Hkey].
    by apply (Hno key).
Qed.

Lemma cleanup_registered w : registered w → registered (exec cleanup w).
Proof.
  intros [Hproto Hreg]. split.
  - unfold exec. by rewrite cleanup_result.
  - intros t [Ht Hno]%cleanup_timers.
    destruct (Hreg t Ht) as (key & Hkey & [->|Hlook]).
    + exists "__proto__". split; [done | by left].
    + by destruct (Hno key).
Qed.

(** After the cleanup only timers of the key ["__proto__"] are pending. *)
Lemma cleanup_leaves_proto_only w t :
  registered w → t ∈ timers (exec cleanup w) →
  ToPropertyKey (username t) = Return "__proto__".
Proof.
  intros [Hproto Hreg] [Ht Hno]%cleanup_timers.
  destruct (Hreg t Ht) as (key & Hkey & [->|Hlook]); [done|].
  by destruct (Hno key).
Qed.

Lemma unmount_registered w : registered w → registered (exec unmount w).
Proof.
  intros Hw. unfold exec. rewrite unmount_result. simpl.
  destruct (handler_installed w); [by apply cleanup_registered | done].
Qed.

Lemma handleTyping_registered user w :
  registered w → registered (exec (handleTyping user) w).
Proof.
  intros [Hproto Hreg]. unfold exec. rewrite handleTyping_result.
  destruct (includes (typingUsers w) user); [done|].
  destruct (ToPropertyKey user) as [key|err] eqn:Hkey;
    [|by apply unmount_registered].
  assert (Hsame : typingTimeouts
              match typingTimeouts w !! key with
              | Some old => exec (clearTimeout old) w
              | None => w
              end = typingTimeouts w) by by destruct (typingTimeouts w !! key).
  split; simpl; rewrite Hsame; [by apply registry_set_proto|].
  intros t. rewrite elem_of_app, list_elem_of_singleton.
  intros [Ht | ->].
  - assert (Hold : t ∈ timers w ∧
              ∀ old, typingTimeouts w !! key = Some old → handle t ≠ old).
    { destruct (typingTimeouts w !! key) as [old|]; simpl in Ht.
      - apply elem_of_bfilter in Ht as [Ht Hne]. split; [done|].
        intros ? [= <-]. apply negb_true_iff, Pos.eqb_neq in Hne. done.
      - done. }
    destruct Hold as [Ht' Hne].
    destruct (Hreg t Ht') as (k & Hk & Hcase). exists k. split; [done|].
    destruct Hcase as [->|Hlook]; [by left|]. right.
    unfold registry_set. destruct (String.eqb key "__proto__"); [done|].
    rewrite lookup_insert_ne; [done|].
    intros ->. by apply (Hne _ Hlook).
  - exists key. split; [done|]. simpl. unfold registry_set.
    destruct (String.eqb key "__proto__") eqn:Hp.
    + left. by apply String.eqb_eq.
    + right. apply lookup_insert_eq.
Qed.

#[local] Instance stays_registered_preorder : PreOrder stays_registered.
Proof.
  split.
  - intros p H. exact H.
  - intros p1 p2 p3 H12 H23 H. by apply H23, H12.
Qed.

Lemma handleTyping_stays_registered user :
  respects stays_registered timer_state (handleTyping user).
Proof. intros w H. by apply handleTyping_registered. Qed.

Lemma onmessage_registered e : respects stays_registered timer_state (onmessage e).
Proof.
  intros w. destruct (decoded e) as [v|] eqn:Hd.
  - unfold exec. rewrite (onmessage_decoded _ _ _ Hd).
    change (timer_state w) with (timer_state (set_next_addr (S (next_addr w)) w)).
    generalize (set_next_addr (S (next_addr w)) w).
    generalize {| jv := v; addr := next_addr w |}. clear. intros d.
    change (respects stays_registered timer_state (dispatch d)).
    unfold dispatch, get, setReceivedMessages, setActiveUsers.
    repeat first [ apply handleTyping_stays_registered | respect_step ].
  - unfold exec. rewrite (onmessage_malformed _ _ Hd).
    apply (respects_preserves stays_registered timer_state). frame_log.
Qed.

Lemma sendWS_preserves_timer_state payload : preserves timer_state (sendWS payload).
Proof. unfold sendWS. repeat first [frame_log | preserve_step]. Qed.

Lemma step_registered ev w : registered w → registered (step ev w).
Proof.
  unfold registered. destruct ev; simpl.
  - unfold provide. by destruct (ws w).
  - destruct (mounted w); [|done]. by rewrite (effect_preserves timer_state).
  - destruct (handler_installed w); [apply cleanup_registered | done].
  - destruct (handler_installed w); [apply onmessage_registered | done].
  - by destruct (Z.leb 0 ms).
  - apply fire_registered.
  - by rewrite (sendMessage_preserves timer_state).
  - assert (H : preserves timer_state (sendTypingUsers user)).
    { unfold sendTypingUsers.
      repeat first [apply sendWS_preserves_timer_state | preserve_step]. }
    by rewrite H.
  - assert (H : preserves timer_state (sendSeenBy ids)).
    { unfold sendSeenBy.
      repeat first [apply sendWS_preserves_timer_state | preserve_step]. }
    by rewrite H.
Qed.

Lemma run_registered trace w : registered w → registered (run trace w).
Proof.
  revert w. induction trace as [|ev trace IH]; intros w Hw; simpl; [done|].
  by apply IH, step_registered.
Qed.

Lemma mount_registered log : registered (mount log).
Proof.
  split; [done|]. intros t Ht. by apply elem_of_nil in Ht.
Qed.

(** In a session, the cleanup detaches the handler, empties the registry,
    and cancels every timer except those of the key ["__proto__"]. *)
Lemma cleanup_in_session log trace :
  let w := run trace (mount log) in
  let w' := exec cleanup w in
  handler_installed w' = false
  ∧ typingTimeouts w' = ∅
  ∧ ∀ t, t ∈ timers w' → ToPropertyKey (username t) = Return "__proto__".
Proof.
  intros w w'.
  assert (Hreg : registered w) by apply run_registered, mount_registered.
  subst w'. clearbody w. split; [|split].
  - unfold exec. rewrite cleanup_result.
    unfold handler_installed, assign_onmessage, exec, modify. simpl.
    destruct (ws w) eqn:Hws; simpl; by rewrite ?Hws.
  - unfold exec. by rewrite cleanup_result.
  - intros t. by apply cleanup_leaves_proto_only.
Qed.

Lemma without_absent l x :
  includes l x = false → without x l = l.
Proof.
  unfold includes, without. induction l as [|y l IH]; simpl; [done|].
  intros [Hy Hl]%orb_false_iff.
  assert (strict_equals y x = false) as ->.
  { revert Hy. unfold same_value_zero, strict_equals.
    destruct (jv y), (jv x); try done. by intros ->. }
  simpl. by rewrite IH.
Qed.

(** A timer callback for a username that is not in the typing set leaves
    the typing set as it is. *)
Lemma expire_absent user w :
  includes (typingUsers w) user = false →
  typingUsers (exec (expire user) w) = typingUsers w.
Proof. intros H. rewrite expire_typingUsers. by apply without_absent. Qed.

(** With the handler detached and no timer pending, neither a frame nor a
    timer event nor the passing of time changes anything. *)
Lemma quiet_after_teardown w ev :
  handler_installed w = false → timers w = [] →
  match ev with
  | Message _ | Fire _ => step ev w = w
  | Elapse _ => observable (step ev w) = observable w
  | _ => True
  end.
Proof.
  intros Hh Ht. destruct ev; simpl; try done.
  - by rewrite Hh.
  - by destruct (Z.leb 0 ms).
  - unfold fire, pending. by rewrite Ht.
Qed.

(** A frame that decodes to [null] makes [data.type] throw a TypeError out
    of the handler; nothing has been changed by then. *)
Lemma null_frame_throws text w :
  let e := {| data := text; decoded := Some JNull |} in
  completion (onmessage e) w = Thrown TypeError
  ∧ observable (exec (onmessage e) w) = observable w.
Proof. done. Qed.

(** ** More about the handler *)

(** The handler on a frame, in terms of the switch: a relation that the
    parts of the switch respect is respected by the handler. *)
Lemma onmessage_respects {B} (R : B → B → Prop) `{!PreOrder R} (f : World → B) e :
  (∀ a w, f (set_next_addr a w) = f w) →
  (∀ g w, f (set_receivedMessages g w) = f w) →
  (∀ v w, f (set_activeUsers v w) = f w) →
  (∀ label payload, respects R f (logEvent label payload)) →
  (∀ user, respects R f (handleTyping user)) →
  respects R f (onmessage e).
Proof.
  intros Haddr Hmsg Hactive Hlog Htyping w.
  destruct (decoded e) as [v|] eqn:Hd.
  - unfold exec. rewrite (onmessage_decoded _ _ _ Hd).
    rewrite <- (Haddr (S (next_addr w)) w).
    generalize (set_next_addr (S (next_addr w)) w).
    generalize {| jv := v; addr := next_addr w |}. clear w Hd. intros d.
    change (respects R f (dispatch d)).
    unfold dispatch, get, setReceivedMessages, setActiveUsers.
    repeat first
      [ apply Hlog | apply Htyping
      | apply (respects_preserves R f);
        first [ apply preserves_ret | apply preserves_lift
              | apply preserves_modify; first [apply Hmsg | apply Hactive] ]
      | match goal with
        | |- respects _ _ (_ ≫= _) => apply (respects_bind R f); [|intros ?]
        | |- respects _ _ (match ?x with _ => _ end) => destruct x
        end ].
  - unfold exec. rewrite (onmessage_malformed _ _ Hd). apply Hlog.
Qed.

Lemma onmessage_preserves {B} (f : World → B) e :
  (∀ a w, f (set_next_addr a w) = f w) →
  (∀ g w, f (set_console g w) = f w) →
  (∀ g w, f (set_receivedMessages g w) = f w) →
  (∀ v w, f (set_activeUsers v w) = f w) →
  (∀ user, preserves f (handleTyping user)) →
  preserves f (onmessage e).
Proof.
  intros Haddr Hconsole Hmsg Hactive Htyping w. symmetry.
  apply (onmessage_respects eq f e); try done.
  - intros label payload w'. by rewrite logEvent_preserves.
  - intros user w'. by rewrite Htyping.
Qed.

Lemma sendWS_respects {B} (R : B → B → Prop) `{!PreOrder R} (f : World → B) payload :
  (∀ s w, f (set_ws s w) = f w) →
  (∀ label payload, respects R f (logEvent label payload)) →
  respects R f (sendWS payload).
Proof.
  intros Hws Hlog. unfold sendWS.
  repeat first
    [ apply Hlog
    | apply (respects_preserves R f);
      first [ apply preserves_ret | apply preserves_gets
            | apply preserves_modify; apply Hws ]
    | match goal with
      | |- respects _ _ (_ ≫= _) => apply (respects_bind R f); [|intros ?]
      | |- respects _ _ (match ?x with _ => _ end) => destruct x
      end ].
Qed.

(** One event, in terms of its parts: a relation on a part [f] of the world
    that the socket does not enter, and that the handler, logging, the timer
    callback, the cleanup and the clearing of [sendMessage] respect, is
    respected by the event. *)
Lemma step_respects {B} (R : B → B → Prop) `{!PreOrder R} (f : World → B) ev w :
  (∀ s w, f (set_ws s w) = f w) →
  (∀ ms, ev = Elapse ms → 0 ≤ ms → R (f w) (f (set_clock (clock w + ms) w))) →
  (∀ e, ev = Message e → respects R f (onmessage e)) →
  (∀ label payload, respects R f (logEvent label payload)) →
  (∀ h, ev = Fire h → R (f w) (f (fire h w))) →
  respects R f cleanup →
  (∀ message user, ev = SendMessage message user →
     respects R f (setTypingUsers (λ prev, mret (without (str user) prev)))) →
  R (f w) (f (step ev w)).
Proof.
  intros Hws Hclock Hmessage Hlog Hfire Hcleanup Hclear.
  destruct ev; simpl.
  - unfold provide. destruct (ws w); by rewrite Hws.
  - destruct (mounted w); [|done]. by rewrite effect_preserves.
  - destruct (handler_installed w); [apply Hcleanup | done].
  - destruct (handler_installed w); [by apply Hmessage | done].
  - destruct (Z.leb 0 ms) eqn:Hms; [|done].
    apply Hclock; [done | by apply Z.leb_le].
  - by apply Hfire.
  - clear Hfire Hclock. revert w. change (respects R f (sendMessage message user)).
    unfold sendMessage.
    apply (respects_bind R f); [by apply sendWS_respects|]. intros sent.
    apply (respects_bind R f); [|intros ?; by apply (respects_preserves R f)].
    destruct sent; [|by apply (respects_preserves R f)].
    apply (respects_bind R f); [apply Hlog|]. intros _. by eapply Hclear.
  - clear Hfire Hclock. revert w. change (respects R f (sendTypingUsers user)).
    unfold sendTypingUsers.
    apply (respects_bind R f); [by apply sendWS_respects|].
    intros ?. by apply (respects_preserves R f).
  - clear Hfire Hclock. revert w. change (respects R f (sendSeenBy ids)).
    unfold sendSeenBy.
    apply (respects_bind R f); [by apply sendWS_respects|].
    intros ?. by apply (respects_preserves R f).
Qed.

Lemma handleTyping_preserves_log user : preserves log (handleTyping user).
Proof. apply handleTyping_preserves; try done. by apply unmount_preserves. Qed.

Lemma handleTyping_preserves_console user : preserves console (handleTyping user).
Proof. apply handleTyping_preserves; try done. by apply unmount_preserves. Qed.

Lemma handleTyping_preserves_clock user : preserves clock (handleTyping user).
Proof. apply handleTyping_preserves; try done. by apply unmount_preserves. Qed.

Lemma handleTyping_preserves_activeUsers user : preserves activeUsers (handleTyping user).
Proof. apply handleTyping_preserves; try done. by apply unmount_preserves. Qed.

Lemma expire_preserves {B} (f : World → B) user :
  (∀ g w, f (set_typingUsers g w) = f w) →
  (∀ g w, f (set_typingTimeouts g w) = f w) →
  preserves f (expire user).
Proof.
  intros Hu Ht w. rewrite expire_result.
  destruct (ToPropertyKey user); by rewrite ?Ht, Hu.
Qed.

Lemma fire_preserves {B} (f : World → B) h :
  (∀ g w, f (set_typingUsers g w) = f w) →
  (∀ g w, f (set_typingTimeouts g w) = f w) →
  (∀ g w, f (set_timers g w) = f w) →
  ∀ w, f (fire h w) = f w.
Proof.
  intros Hu Ht Htm w. unfold fire. destruct (pending h w) as [t|]; [|done].
  destruct (Z.leb (due t) (clock w)); [|done].
  rewrite (expire_preserves f _ Hu Ht). apply Htm.
Qed.

(** ** Events that cannot unmount the hook *)

(** An event other than a frame whose username cannot be printed leaves the
    hook mounted. *)
Lemma step_mounted ev w : crashes ev = false → mounted (step ev w) = mounted w.
Proof.
  intros Hev. symmetry.
  apply (step_respects eq mounted); try done.
  - intros e ->. intros w'. symmetry. by apply onmessage_printable.
  - intros label payload w'. symmetry. by apply logEvent_preserves.
  - intros h _. symmetry. by apply fire_preserves.
  - intros w'. symmetry. by apply cleanup_preserves.
Qed.

Lemma run_mounted trace w :
  Forall (λ ev, crashes ev = false) trace → mounted (run trace w) = mounted w.
Proof.
  revert w. induction trace as [|ev trace IH]; intros w Htrace; simpl; [done|].
  apply Forall_cons in Htrace as [Hev Htrace].
  by rewrite IH, step_mounted.
Qed.

(** ** A handler is installed on a mounted hook only *)

#[local] Instance stays_alive_preorder : PreOrder stays_alive.
Proof.
  split.
  - intros p H. exact H.
  - intros p1 p2 p3 H12 H23 H. by apply H23, H12.
Qed.

Lemma handler_installed_cleanup w : handler_installed (exec cleanup w) = false.
Proof.
  unfold exec. rewrite cleanup_result.
  unfold handler_installed, assign_onmessage, exec, modify. simpl.
  destruct (ws w) eqn:Hws; simpl; by rewrite ?Hws.
Qed.

(** After the unmount the hook is gone and no handler is installed. *)
Lemma unmount_dead w :
  mounted (exec unmount w) = false ∧ handler_installed (exec unmount w) = false.
Proof.
  unfold exec. rewrite unmount_result. split; [done|].
  change (handler_installed (set_mounted false ?x)) with (handler_installed x).
  destruct (handler_installed w) eqn:Hh; [apply handler_installed_cleanup | done].
Qed.

Lemma handleTyping_alive user : respects stays_alive life (handleTyping user).
Proof.
  intros w Hw. destruct (ToPropertyKey user) as [key|err] eqn:Hkey.
  - by rewrite (handleTyping_printable life user key).
  - unfold exec. rewrite handleTyping_result, Hkey.
    destruct (includes (typingUsers w) user); [done|]. simpl.
    destruct (unmount_dead w) as [_ Hdetached].
    intros Hinstalled. simpl in Hinstalled. congruence.
Qed.

Lemma sendWS_life payload : preserves life (sendWS payload).
Proof.
  intros w. unfold exec. rewrite sendWS_result. unfold open_socket.
  destruct (ws w) as [s|] eqn:Hws; simpl.
  - destruct (is_open (readyState s)); simpl.
    + unfold life, handler_installed. simpl. by rewrite Hws.
    + by apply (logEvent_preserves life).
  - by apply (logEvent_preserves life).
Qed.

Lemma sendMessage_life message user : preserves life (sendMessage message user).
Proof.
  unfold sendMessage.
  apply preserves_bind; [apply sendWS_life|]. intros sent.
  apply preserves_bind; [|intros _; apply preserves_ret].
  destruct sent; [|apply preserves_ret].
  apply preserves_bind; [by apply logEvent_preserves|]. intros _ w.
  unfold exec. by rewrite (setTypingUsers_pure (without (str user))).
Qed.

Lemma step_alive ev w : stays_alive (life w) (life (step ev w)).
Proof.
  destruct ev; simpl.
  - unfold provide, life, handler_installed, alive.
    destruct (ws w) as [s|] eqn:Hws; simpl; [done|]. by intros _ [=].
  - destruct (mounted w) eqn:Hm; [|done]. intros _ _. simpl.
    etrans; [apply (effect_preserves mounted); done | done].
  - destruct (handler_installed w) eqn:Hh; [|done].
    intros _ Hinstalled. simpl in Hinstalled.
    by rewrite handler_installed_cleanup in Hinstalled.
  - destruct (handler_installed w); [|done].
    apply (onmessage_respects stays_alive life); try done.
    + intros label payload. apply (respects_preserves _ life).
      by apply logEvent_preserves.
    + apply handleTyping_alive.
  - by destruct (Z.leb 0 ms).
  - by rewrite (fire_preserves life).
  - by rewrite sendMessage_life.
  - unfold sendTypingUsers. by rewrite exec_then_ret, sendWS_life.
  - unfold sendSeenBy. by rewrite exec_then_ret, sendWS_life.
Qed.

Lemma run_alive trace w : alive (life w) → alive (life (run trace w)).
Proof.
  revert w. induction trace as [|ev trace IH]; intros w Hw; simpl; [done|].
  by apply IH, step_alive.
Qed.

(** In a session, where the handler is installed the hook is mounted. *)
Lemma installed_is_mounted log0 trace :
  handler_installed (run trace (mount log0)) = true →
  mounted (run trace (mount log0)) = true.
Proof. apply (run_alive trace (mount log0)). done. Qed.

(** ** The time a user stays in the typing set *)

Lemma strict_equals_str e name :
  strict_equals e (str name) = true ↔ jv e = JStr name.
Proof.
  unfold strict_equals. simpl. destruct (jv e); try (split; [done | by intros [=]]).
  rewrite String.eqb_eq. split; [by intros -> | by intros [= ->]].
Qed.

Lemma same_value_zero_str e name :
  same_value_zero e (str name) = strict_equals e (str name).
Proof. unfold same_value_zero, strict_equals. simpl. by destruct (jv e). Qed.

Lemma includes_str l name :
  includes l (str name) = true ↔ ∃ e, e ∈ l ∧ jv e = JStr name.
Proof.
  unfold includes. rewrite existsb_exists. split.
  - intros (e & Hin & He). exists e. split; [by apply list_elem_of_In|].
    by rewrite same_value_zero_str, strict_equals_str in He.
  - intros (e & Hin & He). exists e. split; [by apply list_elem_of_In|].
    by rewrite same_value_zero_str, strict_equals_str.
Qed.

Lemma includes_same_string l u name :
  jv u = JStr name → includes l u = includes l (str name).
Proof.
  intros Hu. unfold includes. induction l as [|e l IH]; simpl; [done|].
  rewrite IH. f_equal.
  unfold same_value_zero, strict_equals. rewrite Hu. simpl. by destruct (jv e).
Qed.

(** Removing another value keeps the user [name]. *)
Lemma includes_without_other l x name :
  jv x ≠ JStr name →
  includes l (str name) = true → includes (without x l) (str name) = true.
Proof.
  intros Hx. rewrite !includes_str. intros (e & Hin & He). exists e.
  split; [|done]. apply elem_of_bfilter. split; [done|].
  apply negb_true_iff. unfold strict_equals. rewrite He.
  destruct (jv x) eqn:Hjx; try done.
  apply String.eqb_neq. intros ->. by apply Hx.
Qed.

#[local] Instance stays_guarded_preorder name T : PreOrder (stays_guarded name T).
Proof.
  split.
  - intros p H. exact H.
  - intros p1 p2 p3 H12 H23 H. by apply H23, H12.
Qed.

Lemma cleanup_guarded name T :
  respects (stays_guarded name T) typing_state cleanup.
Proof.
  intros w [Hin Htm]. split; simpl.
  - by rewrite cleanup_preserves_typingUsers.
  - intros t [Ht _]%cleanup_timers. by apply Htm.
Qed.

Lemma unmount_guarded name T w :
  stays_guarded name T (typing_state w) (typing_state (exec unmount w)).
Proof.
  unfold exec. rewrite unmount_result. simpl.
  destruct (handler_installed w); [apply cleanup_guarded | done].
Qed.

Lemma handleTyping_guarded name T user :
  respects (stays_guarded name T) typing_state (handleTyping user).
Proof.
  intros w Hw. pose proof Hw as [Hin Htm]. unfold exec. rewrite handleTyping_result.
  destruct (includes (typingUsers w) user) eqn:Hu; [done|].
  destruct (ToPropertyKey user) as [key|err]; [|by apply unmount_guarded].
  simpl in *. split; simpl.
  - unfold includes. rewrite existsb_app. unfold includes in Hin. by rewrite Hin.
  - intros t [Ht | Ht]%elem_of_app.
    + intros Hname. apply Htm; [|done].
      destruct (typingTimeouts w !! key); simpl in Ht; [|done].
      by apply elem_of_bfilter in Ht as [Ht _].
    + apply list_elem_of_singleton in Ht as ->. simpl.
      intros Hname%strict_equals_str.
      by rewrite (includes_same_string _ _ _ Hname), Hin in Hu.
Qed.

Lemma fire_timers h w t : t ∈ timers (fire h w) → t ∈ timers w.
Proof.
  unfold fire. destruct (pending h w) as [t'|]; [|done].
  destruct (Z.leb (due t') (clock w)); [|done].
  rewrite (expire_preserves timers) by done. simpl.
  by intros [Ht _]%elem_of_bfilter.
Qed.

Lemma fire_guarded name T h w :
  clock w < T →
  stays_guarded name T (typing_state w) (typing_state (fire h w)).
Proof.
  intros Hclock [Hin Htm]. split.
  - simpl. rewrite fire_typingUsers.
    destruct (pending h w) as [t|] eqn:Hp; [|done].
    destruct (Z.leb (due t) (clock w)) eqn:Hdue; [|done].
    apply Z.leb_le in Hdue. apply pending_elem in Hp as [Ht _].
    apply includes_without_other; [|done].
    intros Hname%strict_equals_str. specialize (Htm t Ht Hname). lia.
  - intros t Ht. apply Htm. by apply fire_timers in Ht.
Qed.

Lemma clearing_another_guarded name T user :
  user ≠ name →
  respects (stays_guarded name T) typing_state
    (setTypingUsers (λ prev, mret (without (str user) prev))).
Proof.
  intros Hne w [Hin Htm]. split; [|done]. simpl.
  apply includes_without_other; [|done]. simpl. congruence.
Qed.

Lemma step_guarded name T ev w :
  clears name ev = false → clock w < T →
  stays_guarded name T (typing_state w) (typing_state (step ev w)).
Proof.
  intros Hev Hclock.
  assert (Hlog : ∀ label payload,
            respects (stays_guarded name T) typing_state (logEvent label payload)).
  { intros label payload. apply (respects_preserves _ typing_state).
    by apply logEvent_preserves. }
  apply (step_respects (stays_guarded name T) typing_state); try done.
  - intros e _. apply (onmessage_respects (stays_guarded name T) typing_state); try done.
    apply handleTyping_guarded.
  - intros h _. by apply fire_guarded.
  - apply cleanup_guarded.
  - intros message user ->. apply clearing_another_guarded.
    simpl in Hev. by apply String.eqb_neq.
Qed.

(** The clock never runs backwards. *)
Lemma step_clock ev w : clock w ≤ clock (step ev w).
Proof.
  assert (Hlog : ∀ label payload, respects Z.le clock (logEvent label payload)).
  { intros label payload w'. by rewrite logEvent_preserves. }
  apply (step_respects Z.le clock); try done.
  - intros ms _ Hms. simpl. lia.
  - intros e _. apply (onmessage_respects Z.le clock); try done.
    intros user w'. by rewrite handleTyping_preserves_clock.
  - intros h _. by rewrite fire_preserves.
  - intros w'. by rewrite cleanup_preserves.
  - intros message user _ w'. done.
Qed.

Lemma run_clock trace w : clock w ≤ clock (run trace w).
Proof.
  revert w. induction trace as [|ev trace IH]; intros w; simpl; [done|].
  etrans; [apply step_clock | apply IH].
Qed.

Lemma run_guarded name T trace w :
  Forall (λ ev, clears name ev = false) trace →
  clock (run trace w) < T →
  guarded name T (typing_state w) → guarded name T (typing_state (run trace w)).
Proof.
  revert w. induction trace as [|ev trace IH]; intros w Htrace Hclock Hw; simpl; [done|].
  apply Forall_cons in Htrace as [Hev Htrace]. simpl in Hclock.
  apply IH; [done..|].
  apply step_guarded; [done| |done].
  pose proof (step_clock ev w). pose proof (run_clock trace (step ev w)). lia.
Qed.

(** The handler on a ["typing"] frame with a string for a username. *)
Lemma onmessage_typing e props name w :
  decoded e = Some (JObj props) →
  own "type" props = JStr "typing" → own "username" props = JStr name →
  onmessage e w =
    handleTyping {| jv := JStr name; addr := next_addr w |}
      (exec (logEvent "Typing event:" (JObj props)) (set_next_addr (S (next_addr w)) w)).
Proof.
  intros Hd Ht Hu. rewrite (onmessage_decoded _ _ _ Hd).
  unfold dispatch, get. js. rewrite Ht, Hu. simpl.
  by rewrite logEvent_result.
Qed.

(** A user newly added by [handleTyping] in a state where the registry is in
    order: every timer that would remove the user is the new one. *)
Lemma handleTyping_new_guarded name u w :
  registered w → name ≠ "__proto__" → jv u = JStr name →
  includes (typingUsers w) (str name) = false →
  guarded name (clock w + 3000) (typing_state (exec (handleTyping u) w)).
Proof.
  intros [Hproto Hreg] Hname Hu Hin. unfold exec. rewrite handleTyping_result.
  rewrite (includes_same_string _ _ _ Hu), Hin.
  unfold ToPropertyKey. rewrite Hu. simpl. split; simpl.
  - unfold includes. rewrite existsb_snoc.
    rewrite same_value_zero_str. apply orb_true_iff. right.
    by apply strict_equals_str.
  - intros t [Ht | Ht]%elem_of_app.
    + intros Ht_name%strict_equals_str. exfalso.
      assert (Hold : t ∈ timers w ∧
                ∀ old, typingTimeouts w !! name = Some old → handle t ≠ old).
      { destruct (typingTimeouts w !! name) as [old|]; simpl in Ht.
        - apply elem_of_bfilter in Ht as [Ht Hne]. split; [done|].
          intros ? [= <-]. by apply negb_true_iff, Pos.eqb_neq in Hne.
        - done. }
      destruct Hold as [Ht' Hne].
      destruct (Hreg t Ht') as (key & Hkey & Hcase).
      unfold ToPropertyKey in Hkey. rewrite Ht_name in Hkey. simpl in Hkey.
      injection Hkey as <-. destruct Hcase as [?|Hlook]; [done|].
      by apply (Hne _ Hlook).
    + apply list_elem_of_singleton in Ht as ->. simpl. intros _.
      destruct (typingTimeouts w !! name); simpl; lia.
Qed.

Lemma logEvent_registered label payload w :
  registered w → registered (exec (logEvent label payload) w).
Proof.
  unfold registered. by rewrite (logEvent_preserves timer_state).
Qed.

(** X1: in a session, a ["typing"] frame for a user who is not in the typing
    set (and whose name is not ["__proto__"]) puts the user there for a full
    3000ms: whatever happens next, short of [sendMessage] for that user and
    of a frame that takes the hook down (a ["typing"] frame whose username
    cannot be turned into a string), the hook is still mounted and the user
    is still in the typing set as long as less than 3000ms have passed since
    the frame. *)
Theorem new_typing_user_has_the_full_window
    (log0 : bool) (pre trace : list Event) (e : MessageEvent)
    (props : list (string * JValue)) (name : string) :
  let w := run pre (mount log0) in
  let w' := step (Message e) w in
  handler_installed w = true →
  decoded e = Some (JObj props) →
  own "type" props = JStr "typing" → own "username" props = JStr name →
  name ≠ "__proto__" →
  includes (typingUsers w) (str name) = false →
  Forall (λ ev, clears name ev = false ∧ crashes ev = false) trace →
  clock (run trace w') < clock w + 3000 →
  mounted (run trace w') = true
  ∧ includes (typingUsers (run trace w')) (str name) = true.
Proof.
  intros w w' Hh Hd Ht Hu Hname Hin Hboth Hclock.
  assert (Htrace : Forall (λ ev, clears name ev = false) trace)
    by (eapply Forall_impl; [exact Hboth | by intros ev [? _]]).
  assert (Hsafe : Forall (λ ev, crashes ev = false) trace)
    by (eapply Forall_impl; [exact Hboth | by intros ev [_ ?]]).
  assert (Hm : mounted w = true) by by apply installed_is_mounted.
  split.
  { rewrite (run_mounted _ _ Hsafe). subst w'. rewrite step_mounted; [done|].
    simpl. unfold unprintable_username. rewrite Hd, Hu. simpl.
    by rewrite andb_false_r. }
  assert (Hreg : registered w) by apply run_registered, mount_registered.
  assert (Hw' : guarded name (clock w + 3000) (typing_state w')).
  { subst w'. clearbody w. simpl. rewrite Hh. unfold exec.
    rewrite (onmessage_typing _ _ _ _ Hd Ht Hu).
    set (w1 := exec (logEvent _ _) _).
    assert (Hc : clock w1 = clock w)
      by (subst w1; by rewrite (logEvent_preserves clock)).
    assert (Htu : typingUsers w1 = typingUsers w)
      by (subst w1; by rewrite (logEvent_preserves typingUsers)).
    rewrite <- Hc. apply handleTyping_new_guarded; try done.
    - by apply logEvent_registered.
    - by rewrite Htu. }
  by destruct (run_guarded name _ trace w' Htrace Hclock Hw').
Qed.

Lemma new_typing_user_has_the_full_window_witness :
  mounted
    (run [Elapse 2999; Fire 1; Message (typing_frame "bob"); SendTypingUsers "alice";
          Message (typing_frame "alice")]
       (step (Message (typing_frame "alice")) (run [Provide OPEN; Effect] (mount false))))
    = true
  ∧ includes
      (typingUsers
         (run [Elapse 2999; Fire 1; Message (typing_frame "bob"); SendTypingUsers "alice";
               Message (typing_frame "alice")]
            (step (Message (typing_frame "alice")) (run [Provide OPEN; Effect] (mount false)))))
      (str "alice") = true.
Proof.
  apply (new_typing_user_has_the_full_window false [Provide OPEN; Effect] _
           (typing_frame "alice")
           [("type", JStr "typing"); ("username", JStr "alice")] "alice");
    try reflexivity.
  - discriminate.
  - repeat constructor.
Defined.

(** X2: users who are in the typing set when the cleanup runs stay there.
    The cleanup cancels their timers, and a later ["typing"] frame for such
    a user starts no new one, so that in a session, as long as the hook is
    mounted, nothing but [sendMessage] for that user removes the user again,
    however much time passes (the name ["__proto__"] apart); and the hook
    stays mounted unless a ["typing"] frame whose username cannot be turned
    into a string takes it down. *)
Theorem typing_user_outlives_cleanup
    (log0 : bool) (pre trace : list Event) (name : string) :
  let w := run pre (mount log0) in
  handler_installed w = true →
  name ≠ "__proto__" →
  includes (typingUsers w) (str name) = true →
  Forall (λ ev, clears name ev = false ∧ crashes ev = false) trace →
  mounted (run trace (step Cleanup w)) = true
  ∧ includes (typingUsers (run trace (step Cleanup w))) (str name) = true.
Proof.
  intros w Hh Hname Hin Hboth.
  assert (Htrace : Forall (λ ev, clears name ev = false) trace)
    by (eapply Forall_impl; [exact Hboth | by intros ev [? _]]).
  assert (Hsafe : Forall (λ ev, crashes ev = false) trace)
    by (eapply Forall_impl; [exact Hboth | by intros ev [_ ?]]).
  assert (Hm : mounted w = true) by by apply installed_is_mounted.
  split; [by rewrite (run_mounted _ _ Hsafe), step_mounted|].
  assert (Hreg : registered w) by apply run_registered, mount_registered.
  clearbody w. simpl. rewrite Hh.
  set (T := clock (run trace (exec cleanup w)) + 1).
  assert (Hw' : guarded name T (typing_state (exec cleanup w))).
  { split; simpl.
    - by rewrite cleanup_preserves_typingUsers.
    - intros t Ht Ht_name%strict_equals_str. exfalso.
      pose proof (cleanup_leaves_proto_only _ _ Hreg Ht) as Hkey.
      unfold ToPropertyKey in Hkey. rewrite Ht_name in Hkey. simpl in Hkey.
      by injection Hkey as ->. }
  assert (Hclock : clock (run trace (exec cleanup w)) < T) by (subst T; lia).
  by destruct (run_guarded name T trace _ Htrace Hclock Hw').
Qed.

Lemma typing_user_outlives_cleanup_witness :
  mounted
    (run [Effect; Elapse 60000; Message (typing_frame "alice"); Elapse 60000; Fire 1;
          Fire 2]
       (step Cleanup
          (run [Provide OPEN; Effect; Message (typing_frame "alice")] (mount false))))
    = true
  ∧ includes
      (typingUsers
         (run [Effect; Elapse 60000; Message (typing_frame "alice"); Elapse 60000; Fire 1;
               Fire 2]
            (step Cleanup
               (run [Provide OPEN; Effect; Message (typing_frame "alice")] (mount false)))))
      (str "alice") = true.
Proof.
  apply (typing_user_outlives_cleanup false
           [Provide OPEN; Effect; Message (typing_frame "alice")] _ "alice");
    try reflexivity.
  - discriminate.
  - repeat constructor.
Defined.

(** ** The timer callback *)

Lemma includes_without_iff l x name :
  jv x ≠ JStr name →
  includes (without x l) (str name) = includes l (str name).
Proof.
  intros Hx. apply Bool.eq_iff_eq_true. split.
  - rewrite !includes_str. intros (e & [Hin _]%elem_of_bfilter & He). by exists e.
  - by apply includes_without_other.
Qed.

(** X3: the timer callback for a user removes that user from the typing set
    and that user's entry from the registry, and nothing else: every other
    user is in the typing set after it exactly when they were before, the
    other registry entries, the timers, the messages, the active users and
    the socket are untouched, and it returns normally, also when the user is
    no longer in the typing set. *)
Theorem timer_callback_removes_its_user_only (u : Val) (name : string) (w : World) :
  jv u = JStr name →
  let w' := exec (expire u) w in
  completion (expire u) w = Return tt
  ∧ includes (typingUsers w') (str name) = false
  ∧ (∀ other, other ≠ name →
       includes (typingUsers w') (str other) = includes (typingUsers w) (str other))
  ∧ typingTimeouts w' = delete name (typingTimeouts w)
  ∧ (includes (typingUsers w) (str name) = false → typingUsers w' = typingUsers w)
  ∧ timers w' = timers w
  ∧ receivedMessages w' = receivedMessages w
  ∧ activeUsers w' = activeUsers w
  ∧ ws w' = ws w.
Proof.
  intros Hu w'. subst w'. rewrite expire_result.
  unfold completion, expire, ToPropertyKey. js. rewrite Hu. simpl.
  repeat split.
  - rewrite <- (includes_same_string _ u name Hu).
    unfold includes, without. induction (typingUsers w) as [|x l IH]; simpl; [done|].
    destruct (strict_equals x u) eqn:Hx; simpl; [done|].
    rewrite IH, orb_false_r. revert Hx.
    unfold same_value_zero, strict_equals. rewrite Hu. by destruct (jv x).
  - intros other Hne. apply includes_without_iff. rewrite Hu. congruence.
  - intros Hin. apply without_absent. by rewrite (includes_same_string _ _ _ Hu).
Qed.

Lemma timer_callback_removes_its_user_only_witness :
  let w := run [Provide OPEN; Effect; Message (typing_frame "alice");
                Message (typing_frame "bob")] (mount false) in
  let w' := exec (expire (str "alice")) w in
  includes (typingUsers w') (str "alice") = false
  ∧ includes (typingUsers w') (str "bob") = true
  ∧ typingTimeouts w' !! "alice" = None
  ∧ typingTimeouts w' !! "bob" = Some 2%positive.
Proof.
  intros w w'. subst w'.
  destruct (timer_callback_removes_its_user_only (str "alice") "alice" w eq_refl)
    as (_ & Hgone & Hothers & Hreg & _).
  split; [exact Hgone|]. split; [|split].
  - rewrite (Hothers "bob"); [reflexivity | discriminate].
  - rewrite Hreg. apply lookup_delete_eq.
  - rewrite Hreg. reflexivity.
Defined.

(** ** Logging *)

#[local] Instance stays_silent_preorder : PreOrder stays_silent.
Proof.
  split.
  - by intros p.
  - intros p1 p2 p3 H12 H23 H. rewrite (H23 (eq_trans (f_equal fst (H12 H)) H)).
    by apply H12.
Qed.

Lemma handleTyping_preserves_log_state user : preserves log_state (handleTyping user).
Proof. apply handleTyping_preserves; try done. by apply unmount_preserves. Qed.

Lemma step_silent ev w : stays_silent (log_state w) (log_state (step ev w)).
Proof.
  assert (Hlog : ∀ label payload,
            respects stays_silent log_state (logEvent label payload)).
  { intros label payload w' Hoff. unfold exec. rewrite logEvent_result.
    simpl in *. by rewrite Hoff. }
  apply (step_respects stays_silent log_state); try done.
  - intros e _. apply (onmessage_respects stays_silent log_state); try done.
    intros user w'. by rewrite handleTyping_preserves_log_state.
  - intros h _. by rewrite fire_preserves.
  - intros w'. by rewrite cleanup_preserves.
Qed.

(** X4: with the [log] option off the hook never writes to the console:
    whatever events follow, the console stays as it is (and the option stays
    off); from mount, it stays empty. *)
Theorem nothing_is_logged_when_log_is_off (trace : list Event) (w : World) :
  log w = false →
  console (run trace w) = console w ∧ log (run trace w) = false.
Proof.
  revert w. induction trace as [|ev trace IH]; intros w Hoff; simpl; [done|].
  pose proof (step_silent ev w Hoff) as Hstep. unfold log_state in Hstep.
  injection Hstep as Hlog Hconsole.
  destruct (IH (step ev w)) as [Hc Hl]; [congruence|].
  split; congruence.
Qed.

Lemma nothing_is_logged_when_log_is_off_witness :
  console
    (run [SendTypingUsers "alice"; Provide OPEN; Effect;
          Message {| data := "{oops"; decoded := None |};
          Message (typing_frame "alice"); Message bare_message_frame;
          SendSeenBy ["7"]; Cleanup] (mount false)) = [].
Proof.
  by destruct (nothing_is_logged_when_log_is_off
                 [SendTypingUsers "alice"; Provide OPEN; Effect;
                  Message {| data := "{oops"; decoded := None |};
                  Message (typing_frame "alice"); Message bare_message_frame;
                  SendSeenBy ["7"]; Cleanup] (mount false) eq_refl) as [-> _].
Defined.

(** ** What goes out on the socket *)

Lemma wire_same_ws w w' : ws w' = ws w → wire w' = wire w.
Proof. unfold wire. by intros ->. Qed.

Lemma assign_onmessage_wire installed w :
  wire (exec (assign_onmessage installed) w) = wire w.
Proof.
  unfold assign_onmessage, exec, wire. simpl.
  destruct (ws w) eqn:Hws; simpl; by rewrite ?Hws.
Qed.

Lemma sendWS_wire payload w :
  wire (exec (sendWS payload) w) =
    wire w ++ match open_socket w with
              | Some _ => [match payload with
                           | JStr text => Lit text
                           | _ => JSON_stringify payload
                           end]
              | None => []
              end.
Proof.
  unfold exec. rewrite sendWS_result.
  destruct (open_socket w) as [s|] eqn:Hs; simpl.
  - by rewrite (open_socket_wire _ _ Hs).
  - rewrite app_nil_r. apply wire_same_ws. by apply (logEvent_preserves ws).
Qed.

Lemma cleanup_wire w : wire (exec cleanup w) = wire w.
Proof. unfold exec. rewrite cleanup_result. apply assign_onmessage_wire. Qed.

Lemma unmount_wire : preserves wire unmount.
Proof.
  intros w. unfold exec. rewrite unmount_result. simpl.
  destruct (handler_installed w); [apply cleanup_wire | done].
Qed.

Lemma onmessage_wire e : preserves wire (onmessage e).
Proof.
  apply onmessage_preserves; try done. intros user.
  apply handleTyping_preserves; try done. apply unmount_wire.
Qed.

(** X5: the socket is written to by the send operations only, one frame per
    call made while the socket is open and none otherwise: every event of a
    session leaves the frames written so far in place and appends exactly
    the frames of [written_by]; inbound frames, timers, the effect and the
    cleanup write nothing. *)
Theorem socket_gets_the_sent_frames_only :
  (∀ ev w, wire (step ev w) = wire w ++ written_by ev w)
  ∧ (∀ trace w, wire w `prefix_of` wire (run trace w)).
Proof.
  assert (Hstep : ∀ ev w, wire (step ev w) = wire w ++ written_by ev w).
  { intros ev w. destruct ev; simpl; unfold written_by.
    - destruct (open_socket w); rewrite app_nil_r;
        unfold provide, wire; by destruct (ws w).
    - destruct (open_socket w); rewrite app_nil_r;
        (destruct (mounted w); [|done]);
        unfold effect, exec; js; destruct (ws w) eqn:Hws; try done;
        unfold assign_onmessage, wire; simpl; by rewrite Hws.
    - destruct (open_socket w); rewrite app_nil_r;
        (destruct (handler_installed w); [|done]); apply cleanup_wire.
    - destruct (open_socket w); rewrite app_nil_r;
        (destruct (handler_installed w); [|done]); apply onmessage_wire.
    - destruct (open_socket w); rewrite app_nil_r; by destruct (Z.leb 0 ms).
    - destruct (open_socket w); rewrite app_nil_r;
        apply wire_same_ws; by apply (fire_preserves ws).
    - unfold exec. rewrite sendMessage_result.
      destruct (open_socket w) as [s|] eqn:Hs; simpl.
      + rewrite (open_socket_wire _ _ Hs).
        etrans; [apply wire_same_ws, (logEvent_preserves ws); done | done].
      + rewrite app_nil_r. apply wire_same_ws. by apply (logEvent_preserves ws).
    - unfold sendTypingUsers. rewrite exec_then_ret, sendWS_wire.
      by destruct (open_socket w).
    - unfold sendSeenBy. rewrite exec_then_ret, sendWS_wire.
      by destruct (open_socket w). }
  split; [exact Hstep|].
  intros trace. induction trace as [|ev trace IH]; intros w; simpl; [done|].
  etrans; [|apply IH]. rewrite Hstep. by apply prefix_app_r.
Qed.

Lemma sendWS_preserves_observable payload : preserves observable (sendWS payload).
Proof. unfold sendWS. repeat first [frame_log | preserve_step]. Qed.

(** X6: sending a typing notification or a seen receipt changes nothing of
    the hook's own state, whether or not the socket is open: the sender is
    not put into the typing set, no message is touched, the active users,
    the registry and the timers stay as they are. *)
Theorem notifications_leave_the_state_alone (user : string) (ids : list Number) (w : World) :
  observable (exec (sendTypingUsers user) w) = observable w
  ∧ observable (exec (sendSeenBy ids) w) = observable w.
Proof.
  split.
  - framed ltac:(unfold sendTypingUsers;
      repeat first [apply sendWS_preserves_observable | preserve_step]).
  - framed ltac:(unfold sendSeenBy;
      repeat first [apply sendWS_preserves_observable | preserve_step]).
Qed.

(** ** The cleanup, twice *)

Lemma Object_values_empty : Object_values ∅ = [].
Proof. unfold Object_values. by rewrite map_to_list_empty. Qed.

(** X7: running the cleanup a second time changes nothing: cancelling what
    is already cancelled, detaching what is already detached and emptying
    the empty registry leave the world of the first cleanup. *)
Theorem cleanup_twice_is_cleanup_once (w : World) :
  exec cleanup (exec cleanup w) = exec cleanup w
  ∧ completion cleanup (exec cleanup w) = Return tt.
Proof.
  unfold exec, completion. rewrite !cleanup_result. simpl.
  rewrite Object_values_empty. simpl. split; [|done].
  unfold assign_onmessage, exec, modify, set_typingTimeouts, set_timers.
  destruct w as [? ? ? ? ? [s|] ? ? ? ? ?]; simpl; by rewrite filter_all.
Qed.

(** ** The active users *)

Lemma dispatch_user_status props a w :
  own "type" props = JStr "user_status" →
  dispatch {| jv := JObj props; addr := a |} w =
    (Return tt,
     set_activeUsers (nullish (own "active_users" props) (JArr []))
       (exec (logEvent "Users Status:" (JObj props)) w)).
Proof.
  intros Ht. unfold dispatch, get. js. rewrite Ht. simpl.
  by rewrite logEvent_result.
Qed.

Lemma dispatch_activeUsers v a w :
  activeUsers (exec (dispatch {| jv := v; addr := a |}) w) =
    default (activeUsers w)
      match v with
      | JObj props =>
          if is_case {| jv := own "type" props; addr := 0 |} "user_status"
          then Some (nullish (own "active_users" props) (JArr []))
          else None
      | _ => None
      end.
Proof.
  assert (Hother : ∀ t, is_case {| jv := t; addr := a |} "user_status" = false →
    member v "type" = Return t →
    activeUsers (exec (dispatch {| jv := v; addr := a |}) w) = activeUsers w).
  { intros t Hc Ht. unfold dispatch. rewrite exec_bind, get_result.
    cbn [jv addr]. rewrite Ht, Hc. unfold setReceivedMessages.
    framed ltac:(repeat first
      [ frame_log | apply handleTyping_preserves_activeUsers | preserve_step ]). }
  destruct v as [| | | | |items|props]; simpl;
    try first [ by apply (Hother JUndefined)
              | unfold dispatch, get; by rewrite exec_bind ].
  rewrite (is_case_addr _ 0 a).
  destruct (is_case {| jv := own "type" props; addr := a |} "user_status") eqn:Hc.
  - apply is_case_str in Hc. simpl in Hc.
    unfold exec. by rewrite (dispatch_user_status _ _ _ Hc).
  - by apply (Hother (own "type" props)).
Qed.

Lemma onmessage_activeUsers e w :
  activeUsers (exec (onmessage e) w) = default (activeUsers w) (status_update e).
Proof.
  unfold status_update. destruct (decoded e) as [v|] eqn:Hd.
  - unfold exec. rewrite (onmessage_decoded _ _ _ Hd).
    etrans; [apply (dispatch_activeUsers v (next_addr w))|]. by destruct v.
  - unfold exec. rewrite (onmessage_malformed _ _ Hd).
    by apply (logEvent_preserves activeUsers).
Qed.

(** X8: the active users change by a delivered ["user_status"] frame and by
    nothing else: after any event they are what they were, except after a
    frame that reaches the handler, parses and has type ["user_status"],
    when they are what that frame announces. *)
Theorem active_users_follow_the_last_user_status (ev : Event) (w : World) :
  activeUsers (step ev w) =
    match ev with
    | Message e =>
        if handler_installed w then default (activeUsers w) (status_update e)
        else activeUsers w
    | _ => activeUsers w
    end.
Proof.
  destruct ev; simpl.
  - unfold provide. by destruct (ws w).
  - destruct (mounted w); [by apply effect_preserves | done].
  - destruct (handler_installed w); [by apply cleanup_preserves | done].
  - destruct (handler_installed w); [apply onmessage_activeUsers | done].
  - by destruct (Z.leb 0 ms).
  - by apply fire_preserves.
  - by apply sendMessage_preserves.
  - framed ltac:(unfold sendTypingUsers, sendWS;
      repeat first [frame_log | preserve_step]).
  - framed ltac:(unfold sendSeenBy, sendWS;
      repeat first [frame_log | preserve_step]).
Qed.

(** ** When the handler throws *)

Lemma dispatch_returns props a w :
  own "type" props ≠ JStr "typing" →
  completion (dispatch {| jv := JObj props; addr := a |}) w = Return tt.
Proof.
  intros Hne. unfold completion, dispatch, get. js.
  rewrite (is_case_other _ _ "typing" Hne).
  repeat match goal with
         | |- context [is_case ?v ?l] => destruct (is_case v l)
         end;
    rewrite logEvent_result; done.
Qed.

(** The handler on a ["typing"] frame whose username has no property key. *)
Lemma onmessage_unprintable e props w :
  decoded e = Some (JObj props) →
  own "type" props = JStr "typing" → ToString (own "username" props) = None →
  includes (typingUsers w) {| jv := own "username" props; addr := next_addr w |} = false →
  onmessage e w =
    (Return tt,
     exec unmount
       (exec (logEvent "Typing event:" (JObj props)) (set_next_addr (S (next_addr w)) w))).
Proof.
  intros Hd Ht Hkey Hin. rewrite (onmessage_decoded _ _ _ Hd), (dispatch_typing _ _ _ Ht).
  rewrite handleTyping_result.
  rewrite (logEvent_preserves typingUsers) by done. simpl. rewrite Hin.
  unfold ToPropertyKey. simpl. by rewrite Hkey.
Qed.

(** X9: the handler throws out of [ws.onmessage] in one case only: the frame
    decodes to [null], where reading [data.type] fails with a TypeError;
    nothing observable has changed by then and the hook stays mounted.  A
    ["typing"] frame whose [username] cannot be turned into a registry key
    does not make the handler throw: the throw is raised in the updater
    handed to [setTypingUsers], the handler returns normally, and the hook
    is unmounted: the handler is detached, the registry is emptied, the
    state is not set, and neither a later frame nor a later run of the
    effect does anything. *)
Theorem handler_throws_on_a_null_frame_only :
  (∀ e w err,
     completion (onmessage e) w = Thrown err →
     err = TypeError
     ∧ (decoded e = Some JNull ∨ decoded e = Some JUndefined)
     ∧ observable (exec (onmessage e) w) = observable w
     ∧ mounted (exec (onmessage e) w) = mounted w)
  ∧ (∀ e props w,
       decoded e = Some (JObj props) →
       own "type" props = JStr "typing" → ToString (own "username" props) = None →
       includes (typingUsers w)
         {| jv := own "username" props; addr := next_addr w |} = false →
       let w' := exec (onmessage e) w in
       completion (onmessage e) w = Return tt
       ∧ mounted w' = false
       ∧ handler_installed w' = false
       ∧ typingTimeouts w' = (if handler_installed w then ∅ else typingTimeouts w)
       ∧ typingUsers w' = typingUsers w
       ∧ receivedMessages w' = receivedMessages w
       ∧ activeUsers w' = activeUsers w
       ∧ (∀ e', step (Message e') w' = w')
       ∧ step Effect w' = w').
Proof.
  split.
  - intros e w err. unfold completion, exec.
    destruct (decoded e) as [v|] eqn:Hd.
    + rewrite (onmessage_decoded _ _ _ Hd).
      destruct v as [| | | | |items|props];
        try (unfold dispatch, get; js; rewrite ?logEvent_result; simpl;
             intros [= <-]; by eauto).
      assert (Hcase : own "type" props = JStr "typing"
                      ∨ own "type" props ≠ JStr "typing").
      { destruct (is_case {| jv := own "type" props; addr := 0 |} "typing") eqn:Hc.
        - left. by apply is_case_str in Hc.
        - right. intros Heq. by rewrite Heq in Hc. }
      destruct Hcase as [Ht|Hne].
      * rewrite (dispatch_typing _ _ _ Ht), handleTyping_result.
        destruct (includes _ _); [done|]. by destruct (ToPropertyKey _).
      * pose proof (dispatch_returns props (next_addr w)
                      (set_next_addr (S (next_addr w)) w) Hne) as Hret.
        unfold completion in Hret. rewrite Hret. done.
    + rewrite (onmessage_malformed _ _ Hd), logEvent_result. done.
  - intros e props w Hd Ht Hkey Hin w'. subst w'. unfold completion, exec.
    rewrite (onmessage_unprintable _ _ _ Hd Ht Hkey Hin). cbn [fst snd].
    set (w1 := exec (logEvent _ _) _).
    assert (Hw1 : handler_installed w1 = handler_installed w
                  ∧ typingTimeouts w1 = typingTimeouts w
                  ∧ typingUsers w1 = typingUsers w
                  ∧ receivedMessages w1 = receivedMessages w
                  ∧ activeUsers w1 = activeUsers w).
    { subst w1. unfold exec. rewrite logEvent_result. simpl. by destruct (log w). }
    destruct Hw1 as (Hh1 & Hr1 & Hu1 & Hm1 & Ha1).
    destruct (unmount_dead w1) as [Hdead Hdetached].
    split; [done|]. split; [done|]. split; [done|]. split.
    { unfold exec. rewrite unmount_result. simpl. rewrite <- Hh1, <- Hr1.
      destruct (handler_installed w1); [|done].
      unfold exec. by rewrite cleanup_result. }
    rewrite (unmount_preserves typingUsers), (unmount_preserves receivedMessages),
      (unmount_preserves activeUsers) by done.
    repeat split; try done.
    + intros e'. simpl. by rewrite Hdetached.
    + simpl. by rewrite Hdead.
Qed.

Lemma handler_throws_on_a_null_frame_only_witness :
  let e := {| data := "{}";
              decoded := Some (JObj [("type", JStr "typing");
                                     ("username", JObj [("toString", JNum "1")])]) |} in
  let w := exec (onmessage (typing_frame "alice")) (session true) in
  let w' := exec (onmessage e) w in
  completion (onmessage e) w = Return tt
  ∧ mounted w' = false
  ∧ handler_installed w' = false
  ∧ typingTimeouts w' = ∅
  ∧ step (Message bare_message_frame) w' = w'.
Proof.
  intros e w w'.
  destruct handler_throws_on_a_null_frame_only as [_ Hcrash].
  destruct (Hcrash e [("type", JStr "typing"); ("username", JObj [("toString", JNum "1")])]
              w eq_refl eq_refl eq_refl eq_refl)
    as (Hret & Hdead & Hdetached & Hreg & _ & _ & _ & Hframes & _).
  split; [exact Hret|]. split; [exact Hdead|]. split; [exact Hdetached|].
  split; [exact Hreg | apply Hframes].
Defined.

(** ** One timer per user *)

#[local] Instance stays_numbered_preorder : PreOrder stays_numbered.
Proof.
  split.
  - intros p H. exact H.
  - intros p1 p2 p3 H12 H23 H. by apply H23, H12.
Qed.

Lemma well_numbered_filter (q : Timer → bool) l n :
  well_numbered (l, n) → well_numbered (List.filter q l, n).
Proof.
  intros [Hnd Hlt]. split; simpl in *.
  - clear Hlt. induction l as [|t l IH]; simpl; [done|].
    apply NoDup_cons in Hnd as [Hnotin Hnd].
    destruct (q t); simpl; [|by apply IH].
    apply NoDup_cons. split; [|by apply IH].
    intros (t' & Heq & [Hin _]%elem_of_bfilter)%list_elem_of_fmap.
    apply Hnotin. apply list_elem_of_fmap. by exists t'.
  - intros t [Hin _]%elem_of_bfilter. by apply Hlt.
Qed.

Lemma cleanup_numbered : respects stays_numbered handle_state cleanup.
Proof.
  intros w Hw. unfold exec, handle_state. rewrite cleanup_result. simpl.
  rewrite (assign_onmessage_preserves timers), (assign_onmessage_preserves next_handle)
    by done.
  by apply well_numbered_filter.
Qed.

Lemma unmount_numbered w :
  stays_numbered (handle_state w) (handle_state (exec unmount w)).
Proof.
  unfold exec. rewrite unmount_result. simpl.
  destruct (handler_installed w); [apply cleanup_numbered | done].
Qed.

Lemma handleTyping_numbered user :
  respects stays_numbered handle_state (handleTyping user).
Proof.
  intros w Hw. unfold exec. rewrite handleTyping_result.
  destruct (includes (typingUsers w) user); [done|].
  destruct (ToPropertyKey user) as [key|err]; [|by apply unmount_numbered].
  unfold handle_state. simpl.
  set (w1 := match typingTimeouts w !! key with
             | Some old => exec (clearTimeout old) w
             | None => w
             end).
  assert (Hw1 : well_numbered (timers w1, next_handle w)).
  { subst w1. destruct (typingTimeouts w !! key); simpl; [|done].
    by apply well_numbered_filter. }
  destruct Hw1 as [Hnd Hlt]. simpl in *. split; simpl.
  - rewrite fmap_app. simpl. apply NoDup_app. split; [done|]. split.
    + intros h (t & -> & Hin)%list_elem_of_fmap Hnew%list_elem_of_singleton.
      specialize (Hlt t Hin). lia.
    + apply NoDup_singleton.
  - intros t [Hin | ->%list_elem_of_singleton]%elem_of_app; simpl; [|lia].
    specialize (Hlt t Hin). lia.
Qed.

Lemma fire_numbered h w :
  stays_numbered (handle_state w) (handle_state (fire h w)).
Proof.
  unfold fire, handle_state. destruct (pending h w) as [t|]; [|done].
  destruct (Z.leb (due t) (clock w)); [|done].
  rewrite (expire_preserves timers), (expire_preserves next_handle) by done.
  simpl. intros Hw. by apply well_numbered_filter.
Qed.

Lemma step_numbered ev w :
  stays_numbered (handle_state w) (handle_state (step ev w)).
Proof.
  assert (Hlog : ∀ label payload,
            respects stays_numbered handle_state (logEvent label payload)).
  { intros label payload. apply (respects_preserves _ handle_state).
    by apply logEvent_preserves. }
  apply (step_respects stays_numbered handle_state); try done.
  - intros e _. apply (onmessage_respects stays_numbered handle_state); try done.
    apply handleTyping_numbered.
  - intros h _. apply fire_numbered.
  - apply cleanup_numbered.
  - intros message user _ w' Hw'. exact Hw'.
Qed.

Lemma run_numbered trace w :
  well_numbered (handle_state w) → well_numbered (handle_state (run trace w)).
Proof.
  revert w. induction trace as [|ev trace IH]; intros w Hw; simpl; [done|].
  by apply IH, step_numbered.
Qed.

Lemma NoDup_fmap_same {A C} (f : A → C) l x y :
  NoDup (f <$> l) → x ∈ l → y ∈ l → f x = f y → x = y.
Proof.
  induction l as [|z l IH]; simpl; [by intros _ ?%elem_of_nil|].
  intros [Hnotin Hnd]%NoDup_cons [->|Hx]%elem_of_cons [->|Hy]%elem_of_cons Heq;
    try done.
  - exfalso. apply Hnotin. rewrite Heq. by apply list_elem_of_fmap_2.
  - exfalso. apply Hnotin. rewrite <- Heq. by apply list_elem_of_fmap_2.
  - by apply IH.
Qed.

(** X10: in every state a session can reach, the pending timers carry
    different handles, and there is at most one of them per registry key
    (the key ["__proto__"] apart): two pending timers whose usernames have
    the same key are one and the same timer, and the registry holds its
    handle under that key. *)
Theorem one_pending_timer_per_user (log0 : bool) (trace : list Event) :
  let w := run trace (mount log0) in
  NoDup (handle <$> timers w)
  ∧ ∀ t1 t2 key,
      t1 ∈ timers w → t2 ∈ timers w →
      ToPropertyKey (username t1) = Return key →
      ToPropertyKey (username t2) = Return key →
      key ≠ "__proto__" →
      t1 = t2 ∧ typingTimeouts w !! key = Some (handle t1).
Proof.
  intros w.
  assert (Hnum : well_numbered (handle_state w)).
  { apply run_numbered. split; simpl; [apply NoDup_nil_2|].
    by intros t ?%elem_of_nil. }
  assert (Hreg : registered w) by apply run_registered, mount_registered.
  clearbody w. destruct Hnum as [Hnd _]. destruct Hreg as [_ Hreg]. simpl in *.
  split; [done|].
  intros t1 t2 key Ht1 Ht2 Hk1 Hk2 Hkey.
  destruct (Hreg t1 Ht1) as (k1 & Hk1' & [->|Hl1]); [congruence|].
  destruct (Hreg t2 Ht2) as (k2 & Hk2' & [->|Hl2]); [congruence|].
  assert (k1 = key) as -> by congruence. assert (k2 = key) as -> by congruence.
  split; [|done].
  apply (NoDup_fmap_same handle (timers w)); try done. congruence.
Qed.

Lemma one_pending_timer_per_user_witness :
  let w := run [Provide OPEN; Effect; Message (typing_frame "alice");
                SendMessage {| sender_id := "7"; content := "hi"; media := JUndefined |}
                  "alice";
                Elapse 1000; Message (typing_frame "alice")] (mount false) in
  let t := {| handle := 2; due := 4000;
              username := {| jv := JStr "alice"; addr := 2 |} |} in
  timers w = [t] ∧ typingTimeouts w !! "alice" = Some (handle t).
Proof.
  intros w t.
  assert (Hw : timers w = [t]) by (vm_compute; reflexivity).
  split; [exact Hw|].
  destruct (one_pending_timer_per_user false
              [Provide OPEN; Effect; Message (typing_frame "alice");
               SendMessage {| sender_id := "7"; content := "hi"; media := JUndefined |}
                 "alice";
               Elapse 1000; Message (typing_frame "alice")]) as [_ Hone].
  assert (Ht : t ∈ timers w) by (rewrite Hw; by apply list_elem_of_singleton).
  by destruct (Hone t t "alice" Ht Ht eq_refl eq_refl ltac:(discriminate)) as [_ ?].
Defined.

(** ** Frames and the typing set *)

(** X11: a received message does not end its sender's typing indicator: a
    frame of type ["message"] appends to the message list and leaves the
    typing set, the registry, the timers and the active users exactly as
    they were, whoever the sender is. *)
Theorem message_frame_leaves_the_typing_set_alone
    (e : MessageEvent) (props : list (string * JValue)) (w : World) :
  decoded e = Some (JObj props) → own "type" props = JStr "message" →
  let w' := exec (onmessage e) w in
  typingUsers w' = typingUsers w
  ∧ typingTimeouts w' = typingTimeouts w
  ∧ timers w' = timers w
  ∧ activeUsers w' = activeUsers w.
Proof.
  intros Hd Ht w'. subst w'. unfold exec.
  rewrite (onmessage_decoded _ _ _ Hd), (dispatch_message _ _ _ Ht). simpl.
  unfold exec. rewrite logEvent_result. simpl. by destruct (log w).
Qed.

Lemma message_frame_leaves_the_typing_set_alone_witness :
  let e := {| data := "{}";
              decoded := Some (JObj [("type", JStr "message"); ("sender", JStr "alice");
                                     ("content", JStr "hi")]) |} in
  let w := exec (onmessage (typing_frame "alice")) (session false) in
  includes (typingUsers (exec (onmessage e) w)) (str "alice") = true
  ∧ timers (exec (onmessage e) w) = timers w.
Proof.
  intros e w.
  destruct (message_frame_leaves_the_typing_set_alone e
              [("type", JStr "message"); ("sender", JStr "alice"); ("content", JStr "hi")]
              w eq_refl eq_refl) as (Hu & _ & Ht & _).
  split; [by rewrite Hu | exact Ht].
Defined.

(** X12: the handler does not check that a ["typing"] frame names a user: a
    frame without [username] puts [undefined] into the typing set (unless
    it is there already), with a timer registered under the key
    ["undefined"], and returns normally. *)
Theorem typing_frame_without_username_adds_undefined
    (e : MessageEvent) (props : list (string * JValue)) (w : World) :
  decoded e = Some (JObj props) → own "type" props = JStr "typing" →
  "username" ∉ props.*1 →
  let nobody := {| jv := JUndefined; addr := next_addr w |} in
  let w' := exec (onmessage e) w in
  includes (typingUsers w) nobody = false →
  completion (onmessage e) w = Return tt
  ∧ typingUsers w' = typingUsers w ++ [nobody]
  ∧ typingTimeouts w' !! "undefined" = Some (next_handle w)
  ∧ ∃ t, t ∈ timers w' ∧ handle t = next_handle w ∧ username t = nobody
         ∧ due t = clock w + 3000.
Proof.
  intros Hd Ht Hu%own_absent nobody w' Hin. subst w'. unfold completion, exec.
  rewrite (onmessage_decoded _ _ _ Hd), (dispatch_typing _ _ _ Ht), Hu.
  rewrite handleTyping_result. fold nobody.
  set (w1 := exec (logEvent _ _) _).
  assert (Hparts : typingUsers w1 = typingUsers w ∧ next_handle w1 = next_handle w
                   ∧ clock w1 = clock w).
  { subst w1. unfold exec. rewrite logEvent_result. simpl. by destruct (log w). }
  destruct Hparts as (Htu & Hnh & Hc). rewrite Htu, Hin. simpl.
  rewrite Hnh, Hc. repeat split.
  - apply lookup_insert_eq.
  - eexists. split; [apply elem_of_app; right; apply list_elem_of_singleton; done|].
    done.
Qed.

Lemma typing_frame_without_username_adds_undefined_witness :
  let e := {| data := "{}"; decoded := Some (JObj [("type", JStr "typing")]) |} in
  typingUsers (exec (onmessage e) (session false)) = [{| jv := JUndefined; addr := 1 |}]
  ∧ typingTimeouts (exec (onmessage e) (session false)) !! "undefined" = Some 1%positive.
Proof.
  intros e.
  destruct (typing_frame_without_username_adds_undefined e [("type", JStr "typing")]
              (session false) eq_refl eq_refl) as (_ & Hu & Hreg & _).
  - absent.
  - reflexivity.
  - split; [exact Hu | exact Hreg].
Defined.
